(** * gopro_telemetry.py: the GoProTelemetry orchestration class

    A shallow embedding of [src/gopro_telemetry.py].  The class threads one
    mutable object ([self]) through a sequence of methods that rename the
    video on disk, call external tools through [subprocess.run] and raise
    exceptions.  The embedding is an exception-and-state monad over a
    [world]: the object's attributes, the filesystem, and the logs of the
    subprocess invocations and of the renames performed.

    Python [str] values are modelled as [string] (characters with code
    points 0..255); the external tools are a parameter of the model. *)

From Stdlib Require Import String Ascii ZArith List Bool Lia DecimalString.
From stdpp Require Import base option gmap strings.

Import ListNotations.
Local Open Scope string_scope.
Local Open Scope list_scope.
Local Open Scope stdpp_scope.

#[local] Arguments String.append !_ _ / : simpl nomatch.

(** ** Python string operations *)

Module PyStr.

(** [s.startswith(p)] *)
Fixpoint startswith (p s : string) : bool :=
  match p, s with
  | EmptyString, _ => true
  | String a p', String b s' => if Ascii.eqb a b then startswith p' s' else false
  | String _ _, EmptyString => false
  end.

(** [sub in s] *)
Fixpoint contains (sub s : string) : bool :=
  startswith sub s ||
  match s with
  | EmptyString => false
  | String _ s' => contains sub s'
  end.

(** Number of positions of [s] at which [sub] starts (overlaps counted). *)
Fixpoint occurrences (sub s : string) : nat :=
  (if startswith sub s then 1 else 0) +
  match s with
  | EmptyString => 0
  | String _ s' => occurrences sub s'
  end.

(** [s.replace(old, new)] for a non-empty [old]: scan from the left; at a
    position where [old] starts, emit [new] and skip the matched
    characters ([skip] counts those still to drop). *)
Fixpoint replace_scan (old new : string) (skip : nat) (s : string) : string :=
  match s with
  | EmptyString => EmptyString
  | String c s' =>
      match skip with
      | S k => replace_scan old new k s'
      | O =>
          if startswith old s
          then new +:+ replace_scan old new (String.length old - 1) s'
          else String c (replace_scan old new 0 s')
      end
  end.

(** [s.replace("", new)]: [new] goes before every character and at the end. *)
Fixpoint intersperse (new s : string) : string :=
  match s with
  | EmptyString => new
  | String c s' => new +:+ String c (intersperse new s')
  end.

(** [s.replace(old, new)] *)
Definition replace (s old new : string) : string :=
  match old with
  | EmptyString => intersperse new s
  | String _ _ => replace_scan old new 0 s
  end.

(** [s.split(sep)] for a one-character separator. *)
Fixpoint split_go (sep : ascii) (cur : string) (s : string) : list string :=
  match s with
  | EmptyString => [cur]
  | String c s' =>
      if Ascii.eqb c sep then cur :: split_go sep EmptyString s'
      else split_go sep (cur +:+ String c EmptyString) s'
  end.

Definition split (sep : ascii) (s : string) : list string :=
  split_go sep EmptyString s.

(** [sep.join(l)] *)
Definition join (sep : string) (l : list string) : string := String.concat sep l.

(** [str(n)] for an [int]. *)
Definition str_int (n : Z) : string := NilZero.string_of_int (Z.to_int n).

(** The decimal digits of a natural number, without padding. *)
Definition str_nat (n : nat) : string := NilZero.string_of_uint (Nat.to_uint n).

(** A decimal field padded with zeros to [width] digits, as [strftime]
    prints [%m], [%d], [%H], [%M] and [%S] (width 2). *)
Fixpoint zeros (n : nat) : string :=
  match n with O => EmptyString | S k => String "0" (zeros k) end.

Definition zfill (width n : nat) : string :=
  let d := NilZero.string_of_uint (Nat.to_uint n) in
  zeros (width - String.length d) +:+ d.

End PyStr.

(** ** [os.path] (posixpath) *)

Module OsPath.

Definition sep : ascii := "/"%char.

(** [os.path.isabs] *)
Definition isabs (p : string) : bool := PyStr.startswith "/" p.

Fixpoint endswith_sep (p : string) : bool :=
  match p with
  | EmptyString => false
  | String c EmptyString => Ascii.eqb c sep
  | String _ p' => endswith_sep p'
  end.

(** [os.path.join(a, b)] *)
Definition join (a b : string) : string :=
  if isabs b then b
  else if (String.length a =? 0)%nat || endswith_sep a then a +:+ b
  else a +:+ "/" +:+ b.

(** [os.path.basename]: what follows the last separator. *)
Fixpoint basename_go (cur : string) (p : string) : string :=
  match p with
  | EmptyString => cur
  | String c p' =>
      if Ascii.eqb c sep then basename_go EmptyString p'
      else basename_go (cur +:+ String c EmptyString) p'
  end.

Definition basename (p : string) : string := basename_go EmptyString p.

(** The loop of [os.path.normpath]; [acc] is [new_comps] reversed. *)
Fixpoint norm_comps (initial_slashes : bool) (comps acc : list string) : list string :=
  match comps with
  | [] => rev acc
  | comp :: rest =>
      if String.eqb comp "" || String.eqb comp "." then
        norm_comps initial_slashes rest acc
      else if negb (String.eqb comp "..")
              || (negb initial_slashes && match acc with [] => true | _ => false end)
              || match acc with last :: _ => String.eqb last ".." | [] => false end
      then norm_comps initial_slashes rest (comp :: acc)
      else match acc with
           | _ :: acc' => norm_comps initial_slashes rest acc'
           | [] => norm_comps initial_slashes rest acc
           end
  end.

(** [os.path.normpath] *)
Definition normpath (p : string) : string :=
  match p with
  | EmptyString => "."
  | _ =>
      let slashes :=
        if PyStr.startswith "/" p then
          if PyStr.startswith "//" p && negb (PyStr.startswith "///" p)
          then "//" else "/"
        else "" in
      let body := PyStr.join "/" (norm_comps (PyStr.startswith "/" p) (PyStr.split sep p) []) in
      match slashes +:+ body with
      | EmptyString => "."
      | r => r
      end
  end.

(** [os.path.abspath], with the working directory made explicit. *)
Definition abspath (cwd p : string) : string :=
  normpath (if isabs p then p else join cwd p).

(** [os.path.dirname]; used on normalized paths to find the directory
    that holds an entry. *)
Fixpoint rstrip_sep_rev (r : list ascii) : list ascii :=
  match r with
  | c :: r' => if Ascii.eqb c sep then rstrip_sep_rev r' else r
  | [] => []
  end.

Fixpoint head_go (cur acc : string) (p : string) : string :=
  match p with
  | EmptyString => acc
  | String c p' =>
      let cur' := cur +:+ String c EmptyString in
      if Ascii.eqb c sep then head_go cur' cur' p' else head_go cur' acc p'
  end.

Definition dirname (p : string) : string :=
  let head := head_go EmptyString EmptyString p in
  match rstrip_sep_rev (rev (list_ascii_of_string head)) with
  | [] => head
  | r => string_of_list_ascii (rev r)
  end.

End OsPath.

(** ** [re.search] for the patterns of this program

    Every regular expression in the source is a fixed sequence of
    one-character classes, so a pattern is a list of classes and a search
    returns the leftmost place where the whole sequence fits. *)

Module Re.

Definition charclass := ascii -> bool.

Definition lit (c : ascii) : charclass := fun x => Ascii.eqb x c.

(** [.] (without DOTALL): anything but a newline. *)
Definition dot : charclass := fun x => negb (Ascii.eqb x "010"%char).

(** [\d]: among code points 0..255 the decimal digits are [0]..[9]. *)
Definition digit : charclass :=
  fun x => let n := nat_of_ascii x in (48 <=? n)%nat && (n <=? 57)%nat.

Definition one_of (cs : string) : charclass :=
  fun x => existsb (Ascii.eqb x) (list_ascii_of_string cs).

Definition either (a b : charclass) : charclass := fun x => a x || b x.

Definition lits (s : string) : list charclass := map lit (list_ascii_of_string s).

(** [.{n}] *)
Definition dots (n : nat) : list charclass := repeat dot n.

Fixpoint match_here (pat : list charclass) (s : string) : option string :=
  match pat with
  | [] => Some EmptyString
  | cl :: pat' =>
      match s with
      | String c s' =>
          if cl c then
            match match_here pat' s' with
            | Some m => Some (String c m)
            | None => None
            end
          else None
      | EmptyString => None
      end
  end.

(** [re.search(pat, s)], returning [group(0)]. *)
Fixpoint search (pat : list charclass) (s : string) : option string :=
  match match_here pat s with
  | Some m => Some m
  | None =>
      match s with
      | EmptyString => None
      | String _ s' => search pat s'
      end
  end.

End Re.

(** ** [datetime]: parsing and [strftime] *)

Record datetime := {
  year : nat; month : nat; day : nat;
  hour : nat; minute : nat; second : nat
}.

Module DateTime.

Definition digit_val (c : ascii) : option nat :=
  if Re.digit c then Some (nat_of_ascii c - 48) else None.

(** Read exactly [n] decimal digits. *)
Fixpoint digits (n : nat) (acc : nat) (s : string) : option (nat * string) :=
  match n with
  | O => Some (acc, s)
  | S k =>
      match s with
      | String c s' =>
          match digit_val c with
          | Some d => digits k (10 * acc + d) s'
          | None => None
          end
      | EmptyString => None
      end
  end.

Definition expect (c : ascii) (s : string) : option string :=
  match s with
  | String x s' => if Ascii.eqb x c then Some s' else None
  | EmptyString => None
  end.

Fixpoint skip_digits (s : string) : string :=
  match s with
  | String c s' => if Re.digit c then skip_digits s' else s
  | EmptyString => s
  end.

Definition leap (y : nat) : bool :=
  ((y mod 4 =? 0) && negb (y mod 100 =? 0) || (y mod 400 =? 0))%nat.

Definition days_in_month (y m : nat) : nat :=
  match m with
  | 2 => if leap y then 29 else 28
  | 4 | 6 | 9 | 11 => 30
  | _ => 31
  end.

Definition valid (d : datetime) : bool :=
  ((1 <=? year d) && (1 <=? month d) && (month d <=? 12)
   && (1 <=? day d) && (day d <=? days_in_month (year d) (month d))
   && (hour d <=? 23) && (minute d <=? 59) && (second d <=? 59))%nat.

(** [dateutil.parser.parse] on the timestamps the prober writes in
    [format.tags.creation_time]: [YYYY-MM-DDTHH:MM:SS], an optional
    fraction of a second, an optional [Z].  The fraction is dropped by
    the format used here, the zone does not change the fields.  Other
    shapes, and dates that do not exist, give [None]. *)
Definition parse (s : string) : option datetime :=
  '(y, s) ← digits 4 0 s;
  s ← expect "-" s;
  '(mo, s) ← digits 2 0 s;
  s ← expect "-" s;
  '(d, s) ← digits 2 0 s;
  s ← expect "T" s;
  '(h, s) ← digits 2 0 s;
  s ← expect ":" s;
  '(mi, s) ← digits 2 0 s;
  s ← expect ":" s;
  '(se, s) ← digits 2 0 s;
  let s := match s with
           | String "." (String c r) => if Re.digit c then skip_digits r else s
           | _ => s
           end in
  let dt := {| year := y; month := mo; day := d; hour := h; minute := mi; second := se |} in
  if (String.eqb s "" || String.eqb s "Z") && valid dt then Some dt else None.

(** What every [datetime] object satisfies: a date that exists, in the
    years 1 to 9999, and a time of day. *)
Definition well_formed (d : datetime) : bool :=
  valid d && (year d <? 10 ^ 4)%nat.

(** [dt.strftime("%Y-%m-%dT%H%M%S")], as the C library prints it: month,
    day, hour, minute and second padded to two digits, the year as it is
    (the year 999 prints as [999]). *)
Definition strftime (d : datetime) : string :=
  PyStr.str_nat (year d) +:+ "-" +:+ PyStr.zfill 2 (month d) +:+ "-" +:+ PyStr.zfill 2 (day d)
  +:+ "T" +:+ PyStr.zfill 2 (hour d) +:+ PyStr.zfill 2 (minute d) +:+ PyStr.zfill 2 (second d).

End DateTime.

(** ** [bytes.decode("utf-8")]

    One-byte sequences, and the two-byte sequences that encode code points
    128..255.  [None] stands for [UnicodeDecodeError] (and for text outside
    the 0..255 alphabet of the model). *)

Fixpoint decode_utf8 (bs : list Byte.byte) : option string :=
  match bs with
  | [] => Some EmptyString
  | b :: rest =>
      let n := Byte.to_nat b in
      if (n <? 128)%nat then
        match decode_utf8 rest with
        | Some s => Some (String (ascii_of_nat n) s)
        | None => None
        end
      else if ((n =? 194) || (n =? 195))%nat then
        match rest with
        | b2 :: rest' =>
            let m := Byte.to_nat b2 in
            if ((128 <=? m) && (m <? 192))%nat then
              match decode_utf8 rest' with
              | Some s => Some (String (ascii_of_nat ((n - 192) * 64 + (m - 128))) s)
              | None => None
              end
            else None
        | [] => None
        end
      else None
  end.

(** ** Data model *)

(** One entry of [ffprobe_streams["streams"]]; [handler_name] is
    [stream["tags"]["handler_name"]], absent for some streams. *)
Record stream := {
  index : Z;
  codec_tag_string : string;
  handler_name : option string
}.

(** The JSON document printed by the prober. *)
Record probe := {
  streams : list stream;
  creation_time_tag : option string;   (* format.tags.creation_time *)
  firmware_tag : option string         (* format.tags.firmware *)
}.

(** The [gopro2] section of the configuration document. *)
Record executables := {
  to_gpx : string; to_json : string; gpmd_info : string;
  to_csv : string; gps2kml : string
}.

(** The attributes of a [GoProTelemetry] object.  [camera_serial] and
    [creation_time] are [None] until the normalizer sets them. *)
Record obj := {
  ffprobe_streams : probe;
  reprocess : bool;
  gopro2gpx_path : string;
  gopro2json_path : string;
  gpmdinfo_path : string;
  gopro2csv_path : string;
  gps2kml_path : string;
  video_dir : string;
  filename : string;
  video_path : string;
  basename : string;
  telemetry_path : string;
  camera_serial : option string;
  creation_time : option datetime
}.

Definition set_filename (v : string) (o : obj) : obj :=
  {| ffprobe_streams := ffprobe_streams o; reprocess := reprocess o;
     gopro2gpx_path := gopro2gpx_path o; gopro2json_path := gopro2json_path o;
     gpmdinfo_path := gpmdinfo_path o; gopro2csv_path := gopro2csv_path o;
     gps2kml_path := gps2kml_path o; video_dir := video_dir o;
     filename := v; video_path := video_path o; basename := basename o;
     telemetry_path := telemetry_path o; camera_serial := camera_serial o;
     creation_time := creation_time o |}.

Definition set_video_path (v : string) (o : obj) : obj :=
  {| ffprobe_streams := ffprobe_streams o; reprocess := reprocess o;
     gopro2gpx_path := gopro2gpx_path o; gopro2json_path := gopro2json_path o;
     gpmdinfo_path := gpmdinfo_path o; gopro2csv_path := gopro2csv_path o;
     gps2kml_path := gps2kml_path o; video_dir := video_dir o;
     filename := filename o; video_path := v; basename := basename o;
     telemetry_path := telemetry_path o; camera_serial := camera_serial o;
     creation_time := creation_time o |}.

Definition set_telemetry_path (v : string) (o : obj) : obj :=
  {| ffprobe_streams := ffprobe_streams o; reprocess := reprocess o;
     gopro2gpx_path := gopro2gpx_path o; gopro2json_path := gopro2json_path o;
     gpmdinfo_path := gpmdinfo_path o; gopro2csv_path := gopro2csv_path o;
     gps2kml_path := gps2kml_path o; video_dir := video_dir o;
     filename := filename o; video_path := video_path o; basename := basename o;
     telemetry_path := v; camera_serial := camera_serial o;
     creation_time := creation_time o |}.

Definition set_camera_serial (v : option string) (o : obj) : obj :=
  {| ffprobe_streams := ffprobe_streams o; reprocess := reprocess o;
     gopro2gpx_path := gopro2gpx_path o; gopro2json_path := gopro2json_path o;
     gpmdinfo_path := gpmdinfo_path o; gopro2csv_path := gopro2csv_path o;
     gps2kml_path := gps2kml_path o; video_dir := video_dir o;
     filename := filename o; video_path := video_path o; basename := basename o;
     telemetry_path := telemetry_path o; camera_serial := v;
     creation_time := creation_time o |}.

Definition set_creation_time (v : option datetime) (o : obj) : obj :=
  {| ffprobe_streams := ffprobe_streams o; reprocess := reprocess o;
     gopro2gpx_path := gopro2gpx_path o; gopro2json_path := gopro2json_path o;
     gpmdinfo_path := gpmdinfo_path o; gopro2csv_path := gopro2csv_path o;
     gps2kml_path := gps2kml_path o; video_dir := video_dir o;
     filename := filename o; video_path := video_path o; basename := basename o;
     telemetry_path := telemetry_path o; camera_serial := camera_serial o;
     creation_time := v |}.

(** ** The filesystem

    Regular files with their contents and directories, both keyed by
    absolute normalized path (no symbolic links); [readonly] holds the
    directories whose entries may not be created, renamed or removed. *)
Record filesystem := {
  cwd : string;
  files : gmap string (list Byte.byte);
  dirs : gset string;
  readonly : gset string
}.

Definition set_files (m : gmap string (list Byte.byte)) (f : filesystem) : filesystem :=
  {| cwd := cwd f; files := m; dirs := dirs f; readonly := readonly f |}.

Definition resolve (f : filesystem) (p : string) : string := OsPath.abspath (cwd f) p.

(** [os.path.isfile] *)
Definition isfile (f : filesystem) (p : string) : bool :=
  bool_decide (is_Some (files f !! resolve f p)).

Definition isdir (f : filesystem) (p : string) : bool :=
  String.eqb p "/" || bool_decide (p ∈ dirs f).

Definition writable (f : filesystem) (dir : string) : bool :=
  negb (bool_decide (dir ∈ readonly f)).

(** ** Exceptions, the world and the monad *)

Inductive exn :=
| OSError (msg : string)
| FileNotFoundError (path : string)
| IsADirectoryError (path : string)
| PermissionError (path : string)
| CalledProcessError (returncode : Z) (cmd : string)
| KeyError (key : string)
| TypeError
| ValueError (msg : string)
| UnicodeDecodeError
| ParserError (text : string)
| Exception (msg : string).

Inductive result (A : Type) :=
| Ok (a : A)
| Raise (e : exn).
Arguments Ok {A} a.
Arguments Raise {A} e.

(** How a child process ended: its exit code, or it could not be started. *)
Inductive completed :=
| Exited (returncode : Z)
| NotLaunched.

(** [calls] lists the commands handed to [subprocess.run] with the way
    each ended, oldest first; [renames] lists the [os.rename] calls that
    succeeded, as (source, destination). *)
Record world := {
  self : obj;
  fs : filesystem;
  calls : list (list string * completed);
  renames : list (string * string)
}.

Definition with_self (o : obj) (w : world) : world :=
  {| self := o; fs := fs w; calls := calls w; renames := renames w |}.

Definition M (A : Type) : Type := world -> result A * world.

Definition ret {A} (a : A) : M A := fun w => (Ok a, w).

Definition raise {A} (e : exn) : M A := fun w => (Raise e, w).

Definition bind {A B} (m : M A) (k : A -> M B) : M B :=
  fun w =>
    match m w with
    | (Ok a, w') => k a w'
    | (Raise e, w') => (Raise e, w')
    end.

Declare Scope py_scope.
Delimit Scope py_scope with py.
Notation "x <- m ;; k" := (bind m (fun x => k))
  (at level 100, m at next level, right associativity) : py_scope.
Notation "m ;; k" := (bind m (fun _ => k))
  (at level 100, right associativity) : py_scope.
Local Open Scope py_scope.

(** Read the object; assign to one of its attributes. *)
Definition this : M obj := fun w => (Ok (self w), w).

Definition assign (f : obj -> obj) : M unit := fun w => (Ok tt, with_self (f (self w)) w).

(** ** Filesystem operations *)

(** A path with a NUL character cannot be handed to the system. *)
Definition has_nul (p : string) : bool := PyStr.contains (String "000"%char EmptyString) p.

(** Why [os.rename(src, dst)] would fail in [f], if it would: a path holds
    a NUL character ([ValueError], before the system is asked), the source
    is not a file, the destination's directory does not exist, one of the
    two directories is read-only, or the destination is a directory. *)
Definition rename_error (f : filesystem) (src dst : string) : option exn :=
  let s := resolve f src in
  let d := resolve f dst in
  if has_nul src || has_nul dst then Some (ValueError "embedded null byte")
  else if negb (isfile f src) then Some (FileNotFoundError src)
  else if negb (isdir f (OsPath.dirname d)) then Some (FileNotFoundError dst)
  else if negb (writable f (OsPath.dirname s) && writable f (OsPath.dirname d))
  then Some (PermissionError dst)
  else if isdir f d then Some (IsADirectoryError dst)
  else None.

(** The filesystem after a rename that succeeds. *)
Definition moved (f : filesystem) (src dst : string) : filesystem :=
  match files f !! resolve f src with
  | Some data => set_files (<[resolve f dst := data]> (delete (resolve f src) (files f))) f
  | None => f
  end.

(** [os.rename(src, dst)] *)
Definition os_rename (src dst : string) : M unit :=
  fun w =>
    match rename_error (fs w) src dst with
    | Some e => (Raise e, w)
    | None =>
        (Ok tt,
         {| self := self w; fs := moved (fs w) src dst;
            calls := calls w; renames := renames w ++ [(src, dst)] |})
    end.

(** [os.remove(path)] *)
Definition os_remove (path : string) : M unit :=
  fun w =>
    let f := fs w in
    let p := resolve f path in
    match files f !! p with
    | None => (Raise (FileNotFoundError path), w)
    | Some _ =>
        if negb (writable f (OsPath.dirname p)) then (Raise (PermissionError path), w)
        else (Ok tt,
              {| self := self w; fs := set_files (delete p (files f)) f;
                 calls := calls w; renames := renames w |})
    end.

(** [os.path.isfile(path)] in the current filesystem. *)
Definition os_path_isfile (path : string) : M bool :=
  fun w => (Ok (isfile (fs w) path), w).

(** [open(path, "rb")] followed by [f.read(skip)] and [f.read(n)]: the
    second read. *)
Definition read_after (path : string) (skip n : nat) : M (list Byte.byte) :=
  fun w =>
    match files (fs w) !! resolve (fs w) path with
    | None => (Raise (FileNotFoundError path), w)
    | Some data => (Ok (take n (drop skip data)), w)
    end.

(** ** External tools

    What a child process does is not part of the program: [run_tool] gives,
    for a command and the filesystem it starts in, whether the process could
    be started, its exit code, and the filesystem it leaves.  [run_ffprobe]
    is the prober's JSON document ([None] when it wrote to its error
    stream), [load_config] the parsed configuration document. *)

Record environment := {
  run_tool : list string -> filesystem -> completed * filesystem;
  run_ffprobe : list string -> filesystem -> option probe;
  load_config : string -> filesystem -> option executables
}.

(** ** The methods of [GoProTelemetry] *)

(** [str(stream_index)]: [get_stream_index] returns an [int] or [None]. *)
Definition str_index (i : option Z) : string :=
  match i with
  | Some n => PyStr.str_int n
  | None => "None"
  end.

(** [ffmpeg_command] (static) *)
Definition ffmpeg_command (video_path : string) (stream_index : option Z)
    (output_path : string) : list string :=
  [ "ffmpeg"; "-v"; "quiet"; "-y"; "-i"; video_path; "-codec"; "copy";
    "-map"; "0:" +:+ str_index stream_index; "-f"; "rawvideo"; output_path ].

(** The loop of [get_stream_index]: the index of the first stream with the
    tag; falling off the loop returns [None]. *)
Fixpoint find_stream_index (l : list stream) (code_tag_string : string) : option Z :=
  match l with
  | [] => None
  | s :: l' =>
      if String.eqb (codec_tag_string s) code_tag_string then Some (index s)
      else find_stream_index l' code_tag_string
  end.

Definition get_stream_index (o : obj) (code_tag_string : string) : option Z :=
  find_stream_index (streams (ffprobe_streams o)) code_tag_string.

(** The table of [filename_contains_serial], in the order of the source. *)
Definition serial_regex : list (list Re.charclass) :=
  [ Re.lits "C33" ++ Re.dots 11;
    Re.lits "C322" ++ Re.dots 10;
    Re.lits "C32" ++ Re.dots 11;
    Re.lits "C31" ++ Re.dots 11;
    Re.lits "H3" ++ Re.dots 13;
    Re.lits "HD3" ++ Re.dots 12;
    Re.lits "H2" ++ Re.dots 12;
    Re.lits "HD2" ++ Re.dots 11;
    Re.lits "HD1" ++ Re.dots 10 ].

Fixpoint first_search (pats : list (list Re.charclass)) (s : string) : option string :=
  match pats with
  | [] => None
  | pat :: rest =>
      match Re.search pat s with
      | Some m => Some m
      | None => first_search rest s
      end
  end.

Definition filename_contains_serial (o : obj) : option string :=
  first_search serial_regex (filename o).

(** [not v] for a value that is [None] or a [str]. *)
Definition py_not (v : option string) : bool :=
  match v with
  | None => true
  | Some s => String.eqb s ""
  end.

(** [G[HXOP\d][AP\d][AR\d]\d{4}] *)
Definition basename_regex : list Re.charclass :=
  [ Re.lit "G";
    Re.either (Re.one_of "HXOP") Re.digit;
    Re.either (Re.one_of "AP") Re.digit;
    Re.either (Re.one_of "AR") Re.digit;
    Re.digit; Re.digit; Re.digit; Re.digit ].

(** [get_basename], on the filename and the path it reports in its error. *)
Definition get_basename (file_name path : string) : result string :=
  match Re.search basename_regex file_name with
  | Some m => Ok m
  | None => Raise (Exception (path +:+ ": Unknown filename format!"))
  end.

(** The path each converter writes to: [os.path.join(self.video_dir,
    self.filename + ext)], computed when the converter runs. *)
Definition gpx_path (o : obj) : string := OsPath.join (video_dir o) (filename o +:+ ".gpx").
Definition json_path (o : obj) : string := OsPath.join (video_dir o) (filename o +:+ ".json").
Definition csv_path (o : obj) : string := OsPath.join (video_dir o) (filename o +:+ ".csv").
Definition kml_path (o : obj) : string := OsPath.join (video_dir o) (filename o +:+ ".kml").

Definition gpx_command (o : obj) : list string :=
  [gopro2gpx_path o; "-i"; telemetry_path o; "-o"; gpx_path o].
Definition json_command (o : obj) : list string :=
  [gopro2json_path o; "-i"; telemetry_path o; "-o"; json_path o].
Definition csv_command (o : obj) : list string :=
  [gopro2csv_path o; "-i"; telemetry_path o; "-o"; csv_path o].
Definition kml_command (o : obj) : list string :=
  [gps2kml_path o; "-i"; telemetry_path o; "-o"; kml_path o].

Definition telemetry_command (o : obj) : list string :=
  ffmpeg_command (video_path o) (get_stream_index o "gpmd") (telemetry_path o).

Section Methods.

Variable env : environment.

(** [subprocess.run(command)]: the return code of the child process. *)
Definition subprocess_run (command : list string) : M Z :=
  fun w =>
    let out := run_tool env command (fs w) in
    let w' := {| self := self w; fs := snd out;
                 calls := calls w ++ [(command, fst out)]; renames := renames w |} in
    match fst out with
    | Exited rc => (Ok rc, w')
    | NotLaunched => (Raise (FileNotFoundError (hd "" command)), w')
    end.

(** [call_subprocess] (static) *)
Definition call_subprocess (command : list string) : M unit :=
  rc <- subprocess_run command;;
  if negb (rc =? 0)%Z
  then raise (CalledProcessError rc (PyStr.join " " command))
  else ret tt.

(** [get_creation_time], with [dateutil.parser.parse] taken as given:
    [parse] is the datetime it returns for a text, [None] where it raises. *)
Definition get_creation_time_with (parse : string -> option datetime) : M datetime :=
  o <- this;;
  match creation_time_tag (ffprobe_streams o) with
  | None => raise (KeyError "creation_time")
  | Some timestamp =>
      match parse timestamp with
      | Some dt => ret dt
      | None => raise (ParserError timestamp)
      end
  end.

(** [get_creation_time] on the timestamps the prober writes. *)
Definition get_creation_time : M datetime := get_creation_time_with DateTime.parse.

(** [retrieve_camera_serial] *)
Definition retrieve_camera_serial : M string :=
  o <- this;;
  let stream_index := get_stream_index o "fdsc" in
  let temp_output_path := video_path o +:+ "_fdsc.bin" in
  let command := ffmpeg_command (video_path o) stream_index temp_output_path in
  call_subprocess command;;
  data <- read_after temp_output_path 87 14;;
  match decode_utf8 data with
  | None => raise UnicodeDecodeError
  | Some camera_serial =>
      os_remove temp_output_path;;
      ret camera_serial
  end.

(** [process_prepend_filename_with_serial] *)
Definition process_prepend_filename_with_serial : M unit :=
  o <- this;;
  let found := filename_contains_serial o in
  assign (set_camera_serial found);;
  if py_not found then
    serial <- retrieve_camera_serial;;
    assign (set_camera_serial (Some serial));;
    o <- this;;
    let new_filename := serial +:+ "_" +:+ filename o in
    let new_video_path := PyStr.replace (video_path o) (filename o) new_filename in
    let new_telemetry_path := PyStr.replace (telemetry_path o) (filename o) new_filename in
    assign (set_filename new_filename);;
    os_rename (video_path o) new_video_path;;
    assign (set_video_path new_video_path);;
    assign (set_telemetry_path new_telemetry_path)
  else ret tt.

(** [append_filename_with_timestamp], with [dateutil.parser.parse] taken
    as given. *)
Definition append_filename_with_timestamp_with (parse : string -> option datetime) : M unit :=
  ct <- get_creation_time_with parse;;
  assign (set_creation_time (Some ct));;
  let timestamp := DateTime.strftime ct in
  o <- this;;
  if negb (PyStr.contains timestamp (filename o)) then
    let new_filename := PyStr.replace (filename o) ".MP4" ("_" +:+ timestamp +:+ ".MP4") in
    let new_video_path := PyStr.replace (video_path o) (filename o) new_filename in
    let new_telemetry_path := PyStr.replace (telemetry_path o) (filename o) new_filename in
    assign (set_filename new_filename);;
    os_rename (video_path o) new_video_path;;
    assign (set_video_path new_video_path);;
    assign (set_telemetry_path new_telemetry_path)
  else ret tt.

(** [append_filename_with_timestamp] on the timestamps the prober writes. *)
Definition append_filename_with_timestamp : M unit :=
  append_filename_with_timestamp_with DateTime.parse.

(** [extract_telemetry] *)
Definition extract_telemetry : M unit :=
  o <- this;;
  present <- os_path_isfile (telemetry_path o);;
  if reprocess o || negb present then
    let stream_index := get_stream_index o "gpmd" in
    let command := ffmpeg_command (video_path o) stream_index (telemetry_path o) in
    call_subprocess command
  else ret tt.

(** [extract_gpx] *)
Definition extract_gpx : M unit :=
  o <- this;;
  present <- os_path_isfile (gpx_path o);;
  if reprocess o || negb present then
    let command := [gopro2gpx_path o; "-i"; telemetry_path o; "-o"; gpx_path o] in
    call_subprocess command
  else ret tt.

(** [extract_json] *)
Definition extract_json : M unit :=
  o <- this;;
  present <- os_path_isfile (json_path o);;
  if reprocess o || negb present then
    let command := [gopro2json_path o; "-i"; telemetry_path o; "-o"; json_path o] in
    call_subprocess command
  else ret tt.

(** [extract_csv] *)
Definition extract_csv : M unit :=
  o <- this;;
  present <- os_path_isfile (csv_path o);;
  if reprocess o || negb present then
    let command := [gopro2csv_path o; "-i"; telemetry_path o; "-o"; csv_path o] in
    call_subprocess command
  else ret tt.

(** [extract_kml] *)
Definition extract_kml : M unit :=
  o <- this;;
  present <- os_path_isfile (kml_path o);;
  if reprocess o || negb present then
    let command := [gps2kml_path o; "-i"; telemetry_path o; "-o"; kml_path o] in
    call_subprocess command
  else ret tt.

(** [extract_all]; the metadata step is commented out in the source. *)
Definition extract_all : M unit :=
  extract_gpx;;
  extract_json;;
  extract_csv;;
  extract_kml.

(** *** The constructor *)

(** The command of [get_ffprobe_streams]. *)
Definition ffprobe_command (video_path : string) : list string :=
  [ "ffprobe"; "-i"; video_path; "-v"; "quiet"; "-print_format"; "json";
    "-show_format"; "-show_streams"; "-hide_banner" ].

(** The loop of [ensure_valid_gopro_video]: a stream without
    [handler_name] met before the marker raises [KeyError]. *)
Fixpoint found_gopro_indicator (l : list stream) : result bool :=
  match l with
  | [] => Ok false
  | s :: l' =>
      match handler_name s with
      | None => Raise (KeyError "handler_name")
      | Some h => if PyStr.contains "GoPro" h then Ok true else found_gopro_indicator l'
      end
  end.

(** [__init__] up to the assignment of [telemetry_path]: the checks and
    the attributes of the new object.  An exception here leaves no object. *)
Definition new_object (f : filesystem) (video_path : string) (reprocess : bool)
    (config_path : string) : result obj :=
  if negb (isfile f video_path) then Raise (OSError (video_path +:+ " is not a file!"))
  else
    match run_ffprobe env (ffprobe_command video_path) f with
    | None => Raise TypeError
    | Some doc =>
        match found_gopro_indicator (streams doc) with
        | Raise e => Raise e
        | Ok false => Raise (Exception (video_path +:+ " is not a GoPro video!"))
        | Ok true =>
            match load_config env config_path f with
            | None => Raise (FileNotFoundError config_path)
            | Some cfg =>
                let dir := OsPath.abspath (cwd f) (OsPath.join video_path "..") in
                let name := OsPath.basename video_path in
                let path := OsPath.abspath (cwd f) video_path in
                match get_basename name path with
                | Raise e => Raise e
                | Ok base =>
                    Ok {| ffprobe_streams := doc; reprocess := reprocess;
                          gopro2gpx_path := to_gpx cfg; gopro2json_path := to_json cfg;
                          gpmdinfo_path := gpmd_info cfg; gopro2csv_path := to_csv cfg;
                          gps2kml_path := gps2kml cfg;
                          video_dir := dir; filename := name; video_path := path;
                          basename := base;
                          telemetry_path := video_path +:+ ".bin";
                          camera_serial := None; creation_time := None |}
                end
            end
        end
    end.

(** The rest of [__init__]: the two optional renames, then the extraction
    and the conversions. *)
Definition process (prepend_serial append_timestamp : bool) : M unit :=
  (if prepend_serial then process_prepend_filename_with_serial else ret tt);;
  (if append_timestamp then append_filename_with_timestamp else ret tt);;
  extract_telemetry;;
  extract_all.

Inductive run :=
| NotConstructed (e : exn)
| Ran (r : result unit) (w : world).

(** [GoProTelemetry(video_path, reprocess, prepend_filename_with_serial,
    append_filename_with_timestamp, config_path)] *)
Definition GoProTelemetry (f : filesystem) (video_path : string)
    (reprocess prepend_serial append_timestamp : bool) (config_path : string) : run :=
  match new_object f video_path reprocess config_path with
  | Raise e => NotConstructed e
  | Ok o =>
      let w0 := {| self := o; fs := f; calls := []; renames := [] |} in
      let out := process prepend_serial append_timestamp w0 in
      Ran (fst out) (snd out)
  end.

End Methods.

(** ** A test double for the external tools

    [ffmpeg] writes its output file: an 87-byte header, then [payload];
    a converter writes an empty output file.  A tool named in [failing]
    exits with the given code and writes nothing. *)

Module Stub.

Definition header : list Byte.byte := repeat Byte.x00 87.

Fixpoint lookup_code (failing : list (string * Z)) (exe : string) : option Z :=
  match failing with
  | [] => None
  | (name, rc) :: rest => if String.eqb name exe then Some rc else lookup_code rest exe
  end.

Definition write (f : filesystem) (path : string) (data : list Byte.byte) : filesystem :=
  set_files (<[resolve f path := data]> (files f)) f.

Definition tool (payload : list Byte.byte) (failing : list (string * Z))
    (command : list string) (f : filesystem) : completed * filesystem :=
  match lookup_code failing (hd "" command) with
  | Some rc => (Exited rc, f)
  | None =>
      if String.eqb (hd "" command) "ffmpeg"
      then (Exited 0, write f (List.last command "") (header ++ payload))
      else (Exited 0, write f (List.last command "") [])
  end.

Definition gopro_streams : list stream :=
  [ {| index := 0; codec_tag_string := "avc1"; handler_name := Some "GoPro AVC" |};
    {| index := 1; codec_tag_string := "mp4a"; handler_name := Some "GoPro AAC" |};
    {| index := 2; codec_tag_string := "tmcd"; handler_name := Some "GoPro TCD" |};
    {| index := 3; codec_tag_string := "gpmd"; handler_name := Some "GoPro MET" |};
    {| index := 4; codec_tag_string := "fdsc"; handler_name := Some "GoPro SOS" |} ].

Definition doc (l : list stream) (created : string) : probe :=
  {| streams := l; creation_time_tag := Some created; firmware_tag := Some "HD7.01.01.90.00" |}.

Definition tools : executables :=
  {| to_gpx := "/opt/gopro2gpx"; to_json := "/opt/gopro2json";
     gpmd_info := "/opt/gpmdinfo"; to_csv := "/opt/gopro2csv";
     gps2kml := "/opt/gps2kml" |}.

Definition env (payload : string) (failing : list (string * Z)) (d : probe) : environment :=
  {| run_tool := tool (list_byte_of_string payload) failing;
     run_ffprobe := fun _ _ => Some d;
     load_config := fun _ _ => Some tools |}.

(** A filesystem holding the given video files (contents elided). *)
Definition disk (wd : string) (directories : list string) (videos : list string) : filesystem :=
  {| cwd := wd;
     files := list_to_map (map (fun p => (p, [])) videos);
     dirs := list_to_set directories;
     readonly := ∅ |}.

(** The object [__init__] builds for [/videos/GH010042.MP4]. *)
Definition recording (d : probe) (name : string) (force : bool) : obj :=
  {| ffprobe_streams := d; reprocess := force;
     gopro2gpx_path := to_gpx tools; gopro2json_path := to_json tools;
     gpmdinfo_path := gpmd_info tools; gopro2csv_path := to_csv tools;
     gps2kml_path := gps2kml tools;
     video_dir := "/videos"; filename := name;
     video_path := "/videos/" +:+ name;
     basename := "GH010042";
     telemetry_path := "/videos/" +:+ name +:+ ".bin";
     camera_serial := None; creation_time := None |}.

Definition start (o : obj) (f : filesystem) : world :=
  {| self := o; fs := f; calls := []; renames := [] |}.

(** The same filesystem with the given directories made read-only. *)
Definition protect (directories : list string) (f : filesystem) : filesystem :=
  {| cwd := cwd f; files := files f; dirs := dirs f;
     readonly := list_to_set directories |}.

(** A recording whose container has no telemetry stream. *)
Definition streams_without_gpmd : list stream :=
  [ {| index := 0; codec_tag_string := "avc1"; handler_name := Some "GoPro AVC" |};
    {| index := 1; codec_tag_string := "mp4a"; handler_name := Some "GoPro AAC" |} ].

End Stub.

(** ** Vocabulary of the properties *)

(** The five steps that produce an artifact, with the file each one writes
    and the command it hands to [call_subprocess]. *)
Inductive step := Telemetry | Gpx | Json | Csv | Kml.

Definition run_step (env : environment) (s : step) : M unit :=
  match s with
  | Telemetry => extract_telemetry env
  | Gpx => extract_gpx env
  | Json => extract_json env
  | Csv => extract_csv env
  | Kml => extract_kml env
  end.

Definition target (s : step) (o : obj) : string :=
  match s with
  | Telemetry => telemetry_path o
  | Gpx => gpx_path o
  | Json => json_path o
  | Csv => csv_path o
  | Kml => kml_path o
  end.

Definition command (s : step) (o : obj) : list string :=
  match s with
  | Telemetry => telemetry_command o
  | Gpx => gpx_command o
  | Json => json_command o
  | Csv => csv_command o
  | Kml => kml_command o
  end.

(** The condition under which a step does not skip. *)
Definition must_run (s : step) (w : world) : bool :=
  reprocess (self w) || negb (isfile (fs w) (target s (self w))).

(** The exception [call_subprocess] raises for a command that ended badly. *)
Definition raised_for (c : list string) (out : completed) : exn :=
  match out with
  | Exited rc => CalledProcessError rc (PyStr.join " " c)
  | NotLaunched => FileNotFoundError (hd "" c)
  end.

Definition succeeded (out : completed) : bool :=
  match out with
  | Exited rc => (rc =? 0)%Z
  | NotLaunched => false
  end.

(** The converters in the order of [extract_all]. *)
Definition converter_commands (o : obj) : list (list string) :=
  [gpx_command o; json_command o; csv_command o; kml_command o].

(** A list of steps run one after the other, as [extract_all] runs the
    four converters. *)
Fixpoint run_steps (env : environment) (l : list step) : M unit :=
  match l with
  | [] => ret tt
  | s :: l' => run_step env s;; run_steps env l'
  end.

Definition converters : list step := [Gpx; Json; Csv; Kml].

(** The invocations of a pipeline as the specification words them: the
    steps are taken in their order; a step whose output is there is passed
    over unless the run is forced; a step that is run hands its command to
    the tool on the file system the earlier tools have left; and nothing
    is run after a step that ended badly. *)
Fixpoint pipeline_log (env : environment) (l : list step) (o : obj) (f : filesystem)
    : list (list string * completed) :=
  match l with
  | [] => []
  | s :: l' =>
      if reprocess o || negb (isfile f (target s o)) then
        let out := run_tool env (command s o) f in
        (command s o, fst out)
          :: (if succeeded (fst out) then pipeline_log env l' o (snd out) else [])
      else pipeline_log env l' o f
  end.

(** The two steps of the filename normalizer. *)
Inductive normalizer_step := PrependSerial | AppendTimestamp.

Definition run_normalizer (env : environment) (n : normalizer_step) : M unit :=
  match n with
  | PrependSerial => process_prepend_filename_with_serial env
  | AppendTimestamp => append_filename_with_timestamp
  end.

(** The last seven lines of both normalizer methods, which are the same in
    the source: derive the two new paths, assign the new filename, rename
    the file, assign the two new paths. *)
Definition rename_video (new_filename : string) : M unit :=
  o <- this;;
  let new_video_path := PyStr.replace (video_path o) (filename o) new_filename in
  let new_telemetry_path := PyStr.replace (telemetry_path o) (filename o) new_filename in
  assign (set_filename new_filename);;
  os_rename (video_path o) new_video_path;;
  assign (set_video_path new_video_path);;
  assign (set_telemetry_path new_telemetry_path).

(** The object after a rename to [new_filename] that went through. *)
Definition renamed (new_filename : string) (o : obj) : obj :=
  set_telemetry_path (PyStr.replace (telemetry_path o) (filename o) new_filename)
    (set_video_path (PyStr.replace (video_path o) (filename o) new_filename)
       (set_filename new_filename o)).

(** The filename of the timestamp step for a creation time. *)
Definition timestamped (name : string) (dt : datetime) : string :=
  PyStr.replace name ".MP4" ("_" +:+ DateTime.strftime dt +:+ ".MP4").

(** The video sits in [video_dir] under [filename], and the telemetry
    artifact next to it under [filename + ".bin"]. *)
Definition placed (o : obj) : Prop :=
  video_path o = OsPath.join (video_dir o) (filename o)
  /\ telemetry_path o = OsPath.join (video_dir o) (filename o +:+ ".bin").

(** The extension of the file a step writes. *)
Definition extension (s : step) : string :=
  match s with
  | Telemetry => ".bin"
  | Gpx => ".gpx"
  | Json => ".json"
  | Csv => ".csv"
  | Kml => ".kml"
  end.

(** Running a step a second time, as a second invocation of the program
    on the renamed file would. *)
Definition twice (m : M unit) : M unit := m;; m.

(** [YYYY-MM-DDTHHMMSS] as a pattern. *)
Definition timestamp_shape : list Re.charclass :=
  repeat Re.digit 4 ++ [Re.lit "-"] ++ repeat Re.digit 2 ++ [Re.lit "-"]
  ++ repeat Re.digit 2 ++ [Re.lit "T"] ++ repeat Re.digit 6.

(** [-MM-DDTHHMMSS], what follows the year. *)
Definition timestamp_tail_shape : list Re.charclass :=
  [Re.lit "-"] ++ repeat Re.digit 2 ++ [Re.lit "-"]
  ++ repeat Re.digit 2 ++ [Re.lit "T"] ++ repeat Re.digit 6.

(** What [strftime] prints after the year. *)
Definition timestamp_tail (d : datetime) : string :=
  "-" +:+ PyStr.zfill 2 (month d) +:+ "-" +:+ PyStr.zfill 2 (day d)
  +:+ "T" +:+ PyStr.zfill 2 (hour d) +:+ PyStr.zfill 2 (minute d) +:+ PyStr.zfill 2 (second d).

(** A text of exactly [n] decimal digits. *)
Definition is_digits (n : nat) (s : string) : bool :=
  (String.length s =? n)%nat && forallb Re.digit (list_ascii_of_string s).

(** What [os.path.join(dir, name)] puts in front of a relative [name]. *)
Definition dir_prefix (dir : string) : string :=
  if (String.length dir =? 0)%nat || OsPath.endswith_sep dir then dir else dir +:+ "/".

(** Two objects that agree on the directory, the filename and the two
    stored paths. *)
Definition same_paths (o1 o2 : obj) : Prop :=
  video_dir o1 = video_dir o2 /\ filename o1 = filename o2
  /\ video_path o1 = video_path o2 /\ telemetry_path o1 = telemetry_path o2.

(** ** The remaining methods *)

(** [get_firmware_version] *)
Definition get_firmware_version : M string :=
  o <- this;;
  match firmware_tag (ffprobe_streams o) with
  | None => raise (KeyError "firmware")
  | Some v => ret v
  end.

(** The four per-sensor tables of [extract_metadata] and its command. *)
Definition gps_path (o : obj) : string := OsPath.join (video_dir o) (filename o +:+ "_gps.csv").
Definition gyro_path (o : obj) : string := OsPath.join (video_dir o) (filename o +:+ "_gyro.csv").
Definition accl_path (o : obj) : string := OsPath.join (video_dir o) (filename o +:+ "_accl.csv").
Definition temp_path (o : obj) : string := OsPath.join (video_dir o) (filename o +:+ "_temp.csv").

Definition metadata_command (o : obj) : list string :=
  [gpmdinfo_path o; "-i"; telemetry_path o].

Section Metadata.

Variable env : environment.

(** [shutil.move(src, dst)] is a library function with several fallbacks;
    it is taken as given: the exception it raises, if any, and the
    filesystem it leaves. *)
Variable shutil_move : string -> string -> filesystem -> result unit * filesystem.

Definition move (src dst : string) : M unit :=
  fun w =>
    let out := shutil_move src dst (fs w) in
    (fst out,
     {| self := self w; fs := snd out; calls := calls w; renames := renames w |}).

(** [extract_metadata] (defined in the class, its call in [extract_all] is
    commented out). *)
Definition extract_metadata : M unit :=
  o <- this;;
  gps <- os_path_isfile (gps_path o);;
  gyro <- os_path_isfile (gyro_path o);;
  accl <- os_path_isfile (accl_path o);;
  temp <- os_path_isfile (temp_path o);;
  if reprocess o || negb (gps && gyro && accl && temp) then
    let command := [gpmdinfo_path o; "-i"; telemetry_path o] in
    call_subprocess env command;;
    move "./gps.csv" (gps_path o);;
    move "./gyro.csv" (gyro_path o);;
    move "./accl.csv" (accl_path o);;
    move "./temp.csv" (temp_path o)
  else ret tt.

End Metadata.

(** The command-line entry point: [--video_path] is optional, so the
    argument may be [None]; the object is built with [reprocess=True] and
    the default [False] for both renames. *)
Definition main (env : environment) (f : filesystem) (video_path_arg : option string) : run :=
  match video_path_arg with
  | None => NotConstructed TypeError
  | Some p => GoProTelemetry env f p true false false "config.yml"
  end.

(** ** More vocabulary *)

(** The five steps in the order of [__init__]. *)
Definition all_steps : list step := Telemetry :: converters.

(** Two objects with the same settings: everything but the filename, the
    two stored paths and what the normalizer records. *)
Definition same_settings (o1 o2 : obj) : Prop :=
  ffprobe_streams o1 = ffprobe_streams o2 /\ reprocess o1 = reprocess o2
  /\ gopro2gpx_path o1 = gopro2gpx_path o2 /\ gopro2json_path o1 = gopro2json_path o2
  /\ gpmdinfo_path o1 = gpmdinfo_path o2 /\ gopro2csv_path o1 = gopro2csv_path o2
  /\ gps2kml_path o1 = gps2kml_path o2
  /\ video_dir o1 = video_dir o2 /\ basename o1 = basename o2.

(** The position of the first stream with a tag. *)
Fixpoint first_with_tag (l : list stream) (tag : string) : option nat :=
  match l with
  | [] => None
  | s :: l' =>
      if String.eqb (codec_tag_string s) tag then Some 0
      else option_map S (first_with_tag l' tag)
  end.

(** A stream that carries the camera-brand marker in its handler name. *)
Definition has_marker (s : stream) : bool :=
  match handler_name s with
  | Some h => PyStr.contains "GoPro" h
  | None => false
  end.

Definition has_handler (s : stream) : bool :=
  match handler_name s with
  | Some _ => true
  | None => false
  end.

(** A test double for [shutil.move] on regular files: a rename. *)
Definition Stub_move (src dst : string) (f : filesystem) : result unit * filesystem :=
  match rename_error f src dst with
  | Some e => (Raise e, f)
  | None => (Ok tt, moved f src dst)
  end.

(** ** Properties of the steps *)

Section StepFacts.

Variable env : environment.

Lemma call_subprocess_eq (c : list string) (w : world) :
  call_subprocess env c w =
  (if succeeded (fst (run_tool env c (fs w))) then Ok tt
   else Raise (raised_for c (fst (run_tool env c (fs w)))),
   {| self := self w; fs := snd (run_tool env c (fs w));
      calls := calls w ++ [(c, fst (run_tool env c (fs w)))];
      renames := renames w |}).
Proof.
  unfold call_subprocess, subprocess_run, bind, ret, raise.
  destruct (run_tool env c (fs w)) as [[rc|] f']; simpl; [|reflexivity].
  destruct (rc =? 0)%Z; reflexivity.
Qed.

Lemma run_step_eq (s : step) (w : world) :
  run_step env s w =
  if must_run s w then call_subprocess env (command s (self w)) w else (Ok tt, w).
Proof.
  destruct s; unfold must_run; simpl;
    unfold extract_telemetry, extract_gpx, extract_json, extract_csv, extract_kml,
      bind, this, os_path_isfile, ret; simpl;
    match goal with |- context [reprocess ?o || negb ?b] =>
      destruct (reprocess o || negb b) end; reflexivity.
Qed.

(** A converter leaves the object alone and only appends to the log. *)
Lemma run_step_cases (s : step) (w : world) :
  run_step env s w = (Ok tt, w) /\ must_run s w = false
  \/ exists out f',
       must_run s w = true /\
       run_step env s w =
         (if succeeded out then Ok tt else Raise (raised_for (command s (self w)) out),
          {| self := self w; fs := f';
             calls := calls w ++ [(command s (self w), out)];
             renames := renames w |}).
Proof.
  rewrite run_step_eq. destruct (must_run s w).
  - right. eexists _, _. split; [reflexivity|]. apply call_subprocess_eq.
  - left. split; reflexivity.
Qed.

End StepFacts.

(** C1. Skip policy: each of the five steps (telemetry binary, GPX, JSON,
    CSV, KML) hands its command to [subprocess.run] exactly once when
    [reprocess] is set or its output file is missing, and otherwise does
    nothing at all and returns normally; so the log of invocations grows by
    that one command in the first case and by nothing in the second. *)
Theorem skip_policy (env : environment) (s : step) (w : world) :
  run_step env s w =
    (if must_run s w then call_subprocess env (command s (self w)) w else (Ok tt, w))
  /\ map fst (calls (snd (run_step env s w))) =
       map fst (calls w) ++ (if must_run s w then [command s (self w)] else [])
  /\ (if reprocess (self w)
      then map fst (calls (snd (run_step env s w))) = map fst (calls w) ++ [command s (self w)]
      else if isfile (fs w) (target s (self w))
           then run_step env s w = (Ok tt, w)
           else map fst (calls (snd (run_step env s w))) = map fst (calls w) ++ [command s (self w)]).
Proof.
  pose proof (run_step_eq env s w) as E.
  assert (C : map fst (calls (snd (run_step env s w))) =
              map fst (calls w) ++ (if must_run s w then [command s (self w)] else [])).
  { rewrite E. destruct (must_run s w).
    - rewrite call_subprocess_eq. simpl. rewrite map_app. reflexivity.
    - simpl. rewrite app_nil_r. reflexivity. }
  split; [exact E|]. split; [exact C|].
  unfold must_run in *.
  destruct (reprocess (self w)); simpl in *; [exact C|].
  destruct (isfile (fs w) (target s (self w))); simpl in *; [exact E | exact C].
Qed.

(** ** The conversion pipeline *)

Section Pipeline.

Variable env : environment.

Lemma extract_all_run_steps (w : world) :
  extract_all env w = run_steps env converters w.
Proof.
  unfold extract_all, converters; simpl. unfold bind.
  destruct (extract_gpx env w) as [[[]|e1] w1]; [|reflexivity].
  destruct (extract_json env w1) as [[[]|e2] w2]; [|reflexivity].
  destruct (extract_csv env w2) as [[[]|e3] w3]; [|reflexivity].
  destruct (extract_kml env w3) as [[[]|e4] w4]; reflexivity.
Qed.

(** What a run of a list of steps leaves in the log: the commands of
    some of the steps, in their order; everything before the last entry
    ended well; the run raises exactly when the last entry ended badly,
    and then raises the exception of that entry. *)
Lemma run_steps_log (l : list step) (w : world) :
  exists invoked,
    calls (snd (run_steps env l w)) = calls w ++ invoked
    /\ self (snd (run_steps env l w)) = self w
    /\ sublist (map fst invoked) (map (fun s => command s (self w)) l)
    /\ (reprocess (self w) = true ->
        map fst invoked `prefix_of` map (fun s => command s (self w)) l)
    /\ match fst (run_steps env l w) with
       | Ok _ =>
           forallb (fun x => succeeded (snd x)) invoked = true
           /\ (reprocess (self w) = true ->
               map fst invoked = map (fun s => command s (self w)) l)
       | Raise e =>
           exists before c out,
             invoked = before ++ [(c, out)]
             /\ forallb (fun x => succeeded (snd x)) before = true
             /\ succeeded out = false
             /\ e = raised_for c out
       end.
Proof.
  revert w. induction l as [|s l IH]; intros w.
  - exists []. simpl. rewrite app_nil_r.
    split; [reflexivity|]. split; [reflexivity|].
    split; [apply sublist_nil|]. split; [intros _; apply prefix_nil|].
    split; [reflexivity | intros _; reflexivity].
  - assert (U : run_steps env (s :: l) w =
                match run_step env s w with
                | (Ok _, w') => run_steps env l w'
                | (Raise e, w') => (Raise e, w')
                end) by reflexivity.
    rewrite U; clear U. simpl map.
    destruct (run_step_cases env s w) as [[E R]|(out & f' & R & E)]; rewrite E.
    + destruct (IH w) as (inv & Hc & Hs & Hsub & Hpre & Hres).
      exists inv. split; [exact Hc|]. split; [exact Hs|].
      split; [apply sublist_cons_r; left; exact Hsub|].
      assert (Rf : reprocess (self w) = false).
      { unfold must_run in R. apply orb_false_iff in R. tauto. }
      split; [rewrite Rf; discriminate|].
      destruct (fst (run_steps env l w)); [|exact Hres].
      split; [tauto | rewrite Rf; discriminate].
    + set (w1 := {| self := self w; fs := f';
                    calls := calls w ++ [(command s (self w), out)];
                    renames := renames w |}) in *.
      destruct (succeeded out) eqn:S.
      * destruct (IH w1) as (inv & Hc & Hs & Hsub & Hpre & Hres).
        exists ((command s (self w), out) :: inv).
        split; [rewrite Hc; simpl; rewrite <- app_assoc; reflexivity|].
        split; [rewrite Hs; reflexivity|].
        split; [simpl; apply sublist_skip; exact Hsub|].
        split; [intros Rp; simpl; apply prefix_cons; apply Hpre; exact Rp|].
        destruct (fst (run_steps env l w1)) as [[]|e].
        -- destruct Hres as [Ha Hb]. split; [simpl; rewrite S; exact Ha|].
           intros Rp. simpl. f_equal. apply Hb. exact Rp.
        -- destruct Hres as (before & c & o & -> & Hb & Ho & He).
           exists ((command s (self w), out) :: before), c, o.
           repeat split; auto. simpl. rewrite S. exact Hb.
      * exists [(command s (self w), out)]. simpl.
        split; [reflexivity|]. split; [reflexivity|].
        split; [apply sublist_skip, sublist_nil_l|].
        split; [intros _; apply prefix_cons, prefix_nil|].
        exists [], (command s (self w)), out. repeat split; auto.
Qed.

(** The log of a run is the one the specification words. *)
Lemma run_steps_calls (l : list step) (w : world) :
  calls (snd (run_steps env l w)) = calls w ++ pipeline_log env l (self w) (fs w).
Proof.
  revert w. induction l as [|s l IH]; intros w.
  - simpl. rewrite app_nil_r. reflexivity.
  - assert (U : run_steps env (s :: l) w =
                match run_step env s w with
                | (Ok _, w') => run_steps env l w'
                | (Raise e, w') => (Raise e, w')
                end) by reflexivity.
    rewrite U; clear U. rewrite run_step_eq. cbn [pipeline_log].
    unfold must_run.
    destruct (reprocess (self w) || negb (isfile (fs w) (target s (self w)))).
    + rewrite call_subprocess_eq. cbn zeta.
      destruct (succeeded (fst (run_tool env (command s (self w)) (fs w)))).
      * rewrite IH. cbn [self fs calls]. rewrite <- app_assoc. reflexivity.
      * reflexivity.
    + apply IH.
Qed.

End Pipeline.

(** C9. The conversion pipeline takes GPX, JSON, CSV, KML in that order
    and stops at the first converter that fails.  The invocations it
    hands to [subprocess.run] are exactly these: each converter in turn
    whose output is missing at that moment, or every one under
    [reprocess], each on the file system the earlier ones have left, and
    none after one that ended badly.  So they are some of the four
    commands in that order (all four, from GPX on, under [reprocess] when
    none fails); on a run that starts with none of the four outputs the
    first invocation is the GPX command; every invocation before the last
    one exited with 0; when the last one exits with a non-zero code (or
    cannot be started) [extract_all] raises the error of that command,
    which for an exit code is [CalledProcessError] with that code and the
    command joined by spaces, and nothing is invoked after it; when none
    fails it returns normally. *)
Theorem extract_all_order_and_abort (env : environment) (w : world) :
  exists invoked,
    calls (snd (extract_all env w)) = calls w ++ invoked
    /\ invoked = pipeline_log env converters (self w) (fs w)
    /\ (if isfile (fs w) (gpx_path (self w)) then True
        else exists rest,
               invoked = (gpx_command (self w),
                          fst (run_tool env (gpx_command (self w)) (fs w))) :: rest)
    /\ sublist (map fst invoked) (converter_commands (self w))
    /\ (if reprocess (self w)
        then map fst invoked `prefix_of` converter_commands (self w)
        else True)
    /\ match fst (extract_all env w) with
       | Ok _ =>
           forallb (fun x => succeeded (snd x)) invoked = true
           /\ (if reprocess (self w)
               then map fst invoked = converter_commands (self w)
               else True)
       | Raise e =>
           exists before c out,
             invoked = before ++ [(c, out)]
             /\ forallb (fun x => succeeded (snd x)) before = true
             /\ succeeded out = false
             /\ e = raised_for c out
             /\ match out with
                | Exited rc => rc <> 0%Z /\ e = CalledProcessError rc (PyStr.join " " c)
                | NotLaunched => True
                end
       end.
Proof.
  rewrite extract_all_run_steps.
  destruct (run_steps_log env converters w) as (inv & Hc & _ & Hsub & Hpre & Hres).
  assert (Hlog : inv = pipeline_log env converters (self w) (fs w)).
  { pose proof (run_steps_calls env converters w) as L. rewrite Hc in L.
    apply app_inv_head in L. exact L. }
  exists inv. split; [exact Hc|]. split; [exact Hlog|].
  split.
  { destruct (isfile (fs w) (gpx_path (self w))) eqn:Hg; [exact I|].
    rewrite Hlog. unfold converters. cbn [pipeline_log target command].
    rewrite Hg, orb_true_r. eexists. reflexivity. }
  split; [exact Hsub|].
  split; [destruct (reprocess (self w)); [apply Hpre; reflexivity | exact I]|].
  destruct (fst (run_steps env converters w)) as [[]|e].
  - destruct Hres as [Ha Hb]. split; [exact Ha|].
    destruct (reprocess (self w)); [apply Hb; reflexivity | exact I].
  - destruct Hres as (before & c & out & Hi & Hb & Ho & He).
    exists before, c, out. repeat split; auto.
    destruct out as [rc|]; [|exact I]. simpl in Ho, He.
    split; [|exact He]. intros ->. discriminate.
Qed.

(** ** Facts about the string operations *)

Module PyStrFacts.
Import PyStr.

Lemma append_nil_r (s : string) : s +:+ "" = s.
Proof. induction s; simpl; congruence. Qed.

Lemma append_assoc (a b c : string) : (a +:+ b) +:+ c = a +:+ (b +:+ c).
Proof. induction a; simpl; congruence. Qed.

Lemma length_append (a b : string) :
  String.length (a +:+ b) = String.length a + String.length b.
Proof. induction a; simpl; congruence. Qed.

Lemma startswith_append (p s : string) : startswith p (p +:+ s) = true.
Proof.
  induction p as [|a p IH]; simpl; [reflexivity|].
  rewrite Ascii.eqb_refl. exact IH.
Qed.

Lemma startswith_length (p s : string) :
  startswith p s = true -> String.length p <= String.length s.
Proof.
  revert s. induction p as [|a p IH]; intros [|b s]; simpl; try lia; try discriminate.
  destruct (Ascii.eqb a b); [|discriminate]. intros H. apply IH in H. lia.
Qed.

(** Once the text is as long as the prefix, what follows does not matter. *)
Lemma startswith_extend (p x t : string) :
  String.length p <= String.length x ->
  startswith p (x +:+ t) = startswith p x.
Proof.
  revert x. induction p as [|a p IH]; intros [|b x]; simpl; try reflexivity; try lia.
  intros H. destruct (Ascii.eqb a b); [apply IH; lia | reflexivity].
Qed.

Lemma contains_startswith (p s : string) : startswith p s = true -> contains p s = true.
Proof. destruct s; simpl; intros ->; reflexivity. Qed.

Lemma contains_append_l (sub a b : string) :
  contains sub b = true -> contains sub (a +:+ b) = true.
Proof.
  intros H. induction a as [|c a IH]; simpl; [exact H|].
  rewrite IH. apply orb_true_r.
Qed.

Lemma contains_append_r (sub a b : string) :
  contains sub a = true -> contains sub (a +:+ b) = true.
Proof.
  revert sub. induction a as [|c a IH]; intros sub; simpl.
  - rewrite orb_false_r. destruct sub; [|discriminate]. intros _.
    destruct b; reflexivity.
  - intros H. apply orb_true_iff in H as [H|H].
    + assert (L := startswith_length _ _ H).
      change (String c (a +:+ b)) with (String c a +:+ b).
      rewrite startswith_extend by exact L. rewrite H. reflexivity.
    + rewrite (IH _ H). apply orb_true_r.
Qed.

Lemma contains_self_append (sub a b : string) : contains sub (a +:+ sub +:+ b) = true.
Proof.
  apply contains_append_l, contains_startswith, startswith_append.
Qed.

Lemma contains_length (sub s : string) :
  contains sub s = true -> String.length sub <= String.length s.
Proof.
  induction s as [|c s IH]; simpl.
  - rewrite orb_false_r. destruct sub; simpl; [lia|discriminate].
  - intros H. apply orb_true_iff in H as [H|H].
    + apply startswith_length in H. exact H.
    + apply IH in H. lia.
Qed.

Lemma occurrences_suffix (old d : string) : 1 <= occurrences old (d +:+ old).
Proof.
  induction d as [|c d IH]; simpl.
  - pose proof (startswith_append old "") as H. rewrite append_nil_r in H.
    destruct old; simpl in *; [lia|]. rewrite H. lia.
  - lia.
Qed.

Lemma occurrences_zero (old s : string) : occurrences old s = 0 <-> contains old s = false.
Proof.
  induction s as [|c s IH]; simpl.
  - destruct (startswith old ""); simpl; split; (lia || discriminate || reflexivity).
  - destruct (startswith old (String c s)); simpl.
    + split; [lia|discriminate].
    + exact IH.
Qed.

(** Skipping the rest of a match. *)
Lemma replace_scan_skip (old new x t : string) :
  replace_scan old new (String.length x) (x +:+ t) = replace_scan old new 0 t.
Proof.
  induction x as [|c x IH]; simpl; [|exact IH].
  destruct t; reflexivity.
Qed.

Lemma replace_scan_absent (old new s : string) :
  contains old s = false -> replace_scan old new 0 s = s.
Proof.
  induction s as [|c s IH]; simpl; [reflexivity|].
  intros H. apply orb_false_iff in H as [H1 H2].
  simpl in H1. rewrite H1. rewrite IH by exact H2. reflexivity.
Qed.

(** The scan at an occurrence of [old]. *)
Lemma replace_scan_here (old new t : string) :
  old <> "" ->
  replace_scan old new 0 (old +:+ t) = new +:+ replace_scan old new 0 t.
Proof.
  intros Hne. destruct old as [|c old]; [congruence|].
  change (String c old +:+ t) with (String c (old +:+ t)).
  cbn [replace_scan].
  change (String c (old +:+ t)) with (String c old +:+ t).
  rewrite startswith_append.
  replace (String.length (String c old) - 1) with (String.length old) by (simpl; lia).
  rewrite replace_scan_skip. reflexivity.
Qed.

(** A text that ends in its only occurrence of [old]: the scan copies
    what precedes it, replaces it, and goes on with what follows. *)
Lemma replace_scan_unique (old new d t : string) :
  old <> "" ->
  occurrences old (d +:+ old) = 1 ->
  replace_scan old new 0 (d +:+ old +:+ t) = d +:+ new +:+ replace_scan old new 0 t.
Proof.
  intros Hne. induction d as [|c d IH]; intros Hocc.
  - simpl. apply replace_scan_here. exact Hne.
  - simpl in Hocc. pose proof (occurrences_suffix old d) as Hge.
    destruct (startswith old (String c (d +:+ old))) eqn:S; [lia|].
    change ((String c d) +:+ old +:+ t) with (String c (d +:+ old +:+ t)).
    cbn [replace_scan].
    assert (S' : startswith old (String c (d +:+ old +:+ t)) = false).
    { rewrite <- S. rewrite <- append_assoc.
      change (String c ((d +:+ old) +:+ t)) with (String c (d +:+ old) +:+ t).
      apply startswith_extend. simpl. rewrite length_append. lia. }
    rewrite S'. simpl. f_equal. apply IH. simpl in Hocc. lia.
Qed.

(** [replace] on a path that ends in its only occurrence of the old name,
    followed by a suffix in which the old name does not occur. *)
Lemma replace_unique (old new d t : string) :
  occurrences old (d +:+ old) = 1 ->
  contains old t = false ->
  replace (d +:+ old +:+ t) old new = d +:+ new +:+ t.
Proof.
  intros Hocc Ht.
  destruct old as [|c old].
  - destruct t; simpl in Ht; discriminate.
  - unfold replace. rewrite replace_scan_unique by (congruence || exact Hocc).
    rewrite replace_scan_absent by exact Ht. reflexivity.
Qed.

End PyStrFacts.

(** ** The filename normalizer *)

Section Normalizer.

Variable env : environment.

Lemma rename_video_eq (new_filename : string) (w : world) :
  rename_video new_filename w =
  match rename_error (fs w) (video_path (self w))
          (PyStr.replace (video_path (self w)) (filename (self w)) new_filename) with
  | Some e => (Raise e, with_self (set_filename new_filename (self w)) w)
  | None =>
      (Ok tt,
       {| self := renamed new_filename (self w);
          fs := moved (fs w) (video_path (self w))
                  (PyStr.replace (video_path (self w)) (filename (self w)) new_filename);
          calls := calls w;
          renames := renames w ++
            [(video_path (self w),
              PyStr.replace (video_path (self w)) (filename (self w)) new_filename)] |})
  end.
Proof.
  unfold rename_video, bind, this, assign, os_rename; simpl.
  destruct (rename_error _ _ _); reflexivity.
Qed.

(** The serial is read with the object and the rename log untouched. *)
Lemma retrieve_camera_serial_frame (w : world) :
  self (snd (retrieve_camera_serial env w)) = self w
  /\ renames (snd (retrieve_camera_serial env w)) = renames w.
Proof.
  unfold retrieve_camera_serial, bind, this. simpl.
  rewrite call_subprocess_eq.
  destruct (succeeded _); simpl; [|split; reflexivity].
  unfold read_after; simpl.
  destruct (files _ !! _); simpl; [|split; reflexivity].
  destruct (decode_utf8 _); simpl; [|split; reflexivity].
  unfold os_remove; simpl.
  destruct (files _ !! _); simpl; [|split; reflexivity].
  destruct (negb _); simpl; split; reflexivity.
Qed.

Lemma process_prepend_eq (w : world) :
  process_prepend_filename_with_serial env w =
  let found := filename_contains_serial (self w) in
  let w0 := with_self (set_camera_serial found (self w)) w in
  if py_not found then
    match retrieve_camera_serial env w0 with
    | (Ok serial, w1) =>
        rename_video (serial +:+ "_" +:+ filename (self w))
          (with_self (set_camera_serial (Some serial) (self w1)) w1)
    | (Raise e, w1) => (Raise e, w1)
    end
  else (Ok tt, w0).
Proof.
  unfold process_prepend_filename_with_serial.
  unfold bind at 1 2. unfold this at 1, assign at 1. cbn zeta. cbn beta iota.
  destruct (py_not (filename_contains_serial (self w))); [|reflexivity].
  unfold bind at 1.
  pose proof (retrieve_camera_serial_frame
                (with_self (set_camera_serial (filename_contains_serial (self w)) (self w)) w))
    as [Hs _].
  destruct (retrieve_camera_serial env _) as [[serial|e] w1]; [|reflexivity].
  simpl in Hs.
  unfold rename_video, bind, this, assign. simpl. rewrite Hs. simpl. reflexivity.
Qed.

Lemma append_with_eq (parse : string -> option datetime) (w : world) :
  append_filename_with_timestamp_with parse w =
  match creation_time_tag (ffprobe_streams (self w)) with
  | None => (Raise (KeyError "creation_time"), w)
  | Some timestamp =>
      match parse timestamp with
      | None => (Raise (ParserError timestamp), w)
      | Some dt =>
          let w0 := with_self (set_creation_time (Some dt) (self w)) w in
          if PyStr.contains (DateTime.strftime dt) (filename (self w))
          then (Ok tt, w0)
          else rename_video (timestamped (filename (self w)) dt) w0
      end
  end.
Proof.
  unfold append_filename_with_timestamp_with, get_creation_time_with,
    bind, this, raise, ret. simpl.
  destruct (creation_time_tag _); [|reflexivity].
  destruct (parse _); [|reflexivity]. simpl.
  destruct (PyStr.contains _ _); reflexivity.
Qed.

Lemma append_eq (w : world) :
  append_filename_with_timestamp w =
  match creation_time_tag (ffprobe_streams (self w)) with
  | None => (Raise (KeyError "creation_time"), w)
  | Some timestamp =>
      match DateTime.parse timestamp with
      | None => (Raise (ParserError timestamp), w)
      | Some dt =>
          let w0 := with_self (set_creation_time (Some dt) (self w)) w in
          if PyStr.contains (DateTime.strftime dt) (filename (self w))
          then (Ok tt, w0)
          else rename_video (timestamped (filename (self w)) dt) w0
      end
  end.
Proof. apply append_with_eq. Qed.

End Normalizer.

(** ** Runs of the constructor on concrete recordings *)

(** C3. A recording whose stream list has no [gpmd] stream, telemetry not
    yet extracted: [get_stream_index] falls off its loop and returns
    [None], no exception is raised, and [extract_telemetry] hands the
    demuxer a command whose stream map is [0:None]; the run then goes on
    to the four converters. *)
Theorem extract_telemetry_without_gpmd_invokes_demuxer :
  let env := Stub.env "" [] (Stub.doc Stub.streams_without_gpmd "2021-06-01T14:05:30Z") in
  let disk := Stub.disk "/videos" ["/videos"] ["/videos/GH010042.MP4"] in
  match GoProTelemetry env disk "/videos/GH010042.MP4" false false false "config.yml" with
  | Ran r w =>
      get_stream_index (self w) "gpmd" = None
      /\ r = Ok tt
      /\ head (calls w) =
           Some (["ffmpeg"; "-v"; "quiet"; "-y"; "-i"; "/videos/GH010042.MP4";
                  "-codec"; "copy"; "-map"; "0:None"; "-f"; "rawvideo";
                  "/videos/GH010042.MP4.bin"], Exited 0)
      /\ length (calls w) = 5
  | NotConstructed _ => False
  end.
Proof. vm_compute. repeat split; reflexivity. Qed.

(** C2. A recording in a directory that cannot be written, timestamp
    suffixing requested: [os.rename] raises, the file keeps its name on
    disk, [video_path] and [telemetry_path] keep the old name, but
    [filename] already holds the new one, since it is assigned before the
    rename is attempted. *)
Theorem failed_rename_leaves_filename_updated :
  let env := Stub.env "" [] (Stub.doc Stub.gopro_streams "2021-06-01T14:05:30Z") in
  let disk := Stub.protect ["/videos"]
                (Stub.disk "/videos" ["/videos"] ["/videos/GH010042.MP4"]) in
  match GoProTelemetry env disk "/videos/GH010042.MP4" false false true "config.yml" with
  | Ran r w =>
      r = Raise (PermissionError "/videos/GH010042_2021-06-01T140530.MP4")
      /\ filename (self w) = "GH010042_2021-06-01T140530.MP4"
      /\ video_path (self w) = "/videos/GH010042.MP4"
      /\ telemetry_path (self w) = "/videos/GH010042.MP4.bin"
      /\ isfile (fs w) "/videos/GH010042.MP4" = true
      /\ isfile (fs w) "/videos/GH010042_2021-06-01T140530.MP4" = false
      /\ renames w = []
  | NotConstructed _ => False
  end.
Proof. vm_compute. repeat split; reflexivity. Qed.

(** ** Filesystem facts *)

Lemma isfile_deleted (f : filesystem) (p : string) :
  isfile (set_files (delete (resolve f p) (files f)) f) p = false.
Proof.
  unfold isfile, resolve; simpl. rewrite lookup_delete_eq.
  apply bool_decide_eq_false. intros [x Hx]. discriminate.
Qed.

Lemma rename_error_source (f : filesystem) (src dst : string) :
  rename_error f src dst = None -> isfile f src = true.
Proof.
  unfold rename_error. destruct (has_nul src || has_nul dst); [discriminate|].
  destruct (isfile f src); [reflexivity|]. simpl. discriminate.
Qed.

(** After a rename that succeeds the destination is a file. *)
Lemma moved_isfile (f : filesystem) (src dst : string) :
  rename_error f src dst = None -> isfile (moved f src dst) dst = true.
Proof.
  intros H. apply rename_error_source in H.
  unfold isfile in H. apply bool_decide_eq_true in H. destruct H as [data Hd].
  unfold moved. rewrite Hd. unfold isfile, resolve; simpl.
  rewrite lookup_insert_eq. apply bool_decide_eq_true. eexists; reflexivity.
Qed.

(** The lookup of [get_stream_index] at the first stream with the tag. *)
Lemma find_stream_index_at (before after : list stream) (s : stream) (tag : string) :
  codec_tag_string s = tag ->
  forallb (fun x => negb (String.eqb (codec_tag_string x) tag)) before = true ->
  find_stream_index (before ++ s :: after) tag = Some (index s).
Proof.
  intros Hs. induction before as [|x before IH]; simpl; intros Hb.
  - rewrite Hs, String.eqb_refl. reflexivity.
  - apply andb_true_iff in Hb as [Hx Hb].
    apply negb_true_iff in Hx. rewrite Hx. apply IH. exact Hb.
Qed.

(** C7. When the filename matches none of the serial patterns, the serial
    is read from the device-info stream.  With [s] the first stream of the
    container whose codec tag is [fdsc], one demuxer invocation is made,
    [ffmpeg -v quiet -y -i <video_path> -codec copy -map 0:<index of s> -f
    rawvideo <video_path>_fdsc.bin]; when it exits with 0 and the file
    holds [data], the serial is the text decoded from the 14 bytes that
    follow the first 87, and the temporary file is removed.  That serial
    is recorded and the video is renamed to [<serial>_<filename>]. *)
Theorem serial_from_device_info (env : environment) (w : world)
    (before after : list stream) (s : stream)
    (f1 : filesystem) (data : list Byte.byte) (serial : string) :
  let o := self w in
  let temp := video_path o +:+ "_fdsc.bin" in
  let cmd := [ "ffmpeg"; "-v"; "quiet"; "-y"; "-i"; video_path o; "-codec"; "copy";
               "-map"; "0:" +:+ PyStr.str_int (index s); "-f"; "rawvideo"; temp ] in
  let f2 := set_files (delete (resolve f1 temp) (files f1)) f1 in
  let new_filename := serial +:+ "_" +:+ filename o in
  let new_video_path := PyStr.replace (video_path o) (filename o) new_filename in
  filename_contains_serial o = None ->
  streams (ffprobe_streams o) = before ++ s :: after ->
  codec_tag_string s = "fdsc" ->
  forallb (fun x => negb (String.eqb (codec_tag_string x) "fdsc")) before = true ->
  run_tool env cmd (fs w) = (Exited 0, f1) ->
  files f1 !! resolve f1 temp = Some data ->
  decode_utf8 (take 14 (drop 87 data)) = Some serial ->
  writable f1 (OsPath.dirname (resolve f1 temp)) = true ->
  rename_error f2 (video_path o) new_video_path = None ->
  retrieve_camera_serial env w =
    (Ok serial,
     {| self := o; fs := f2; calls := calls w ++ [(cmd, Exited 0)]; renames := renames w |})
  /\ isfile f2 temp = false
  /\ exists w',
       process_prepend_filename_with_serial env w = (Ok tt, w')
       /\ calls w' = calls w ++ [(cmd, Exited 0)]
       /\ camera_serial (self w') = Some serial
       /\ filename (self w') = new_filename
       /\ video_path (self w') = new_video_path
       /\ renames w' = renames w ++ [(video_path o, new_video_path)]
       /\ isfile (fs w') new_video_path = true.
Proof.
  intros o temp cmd f2 new_filename new_video_path
    Hnone Hstreams Htag Hbefore Hrun Hdata Hdec Hwr Hren.
  assert (Hcmd : ffmpeg_command (video_path o) (get_stream_index o "fdsc") temp = cmd).
  { unfold get_stream_index. rewrite Hstreams.
    rewrite (find_stream_index_at before after s "fdsc" Htag Hbefore). reflexivity. }
  assert (R : forall w0, self w0 = self w \/ self w0 = set_camera_serial None (self w) ->
                fs w0 = fs w ->
                retrieve_camera_serial env w0 =
                (Ok serial,
                 {| self := self w0; fs := f2; calls := calls w0 ++ [(cmd, Exited 0)];
                    renames := renames w0 |})).
  { intros w0 Hs Hf.
    assert (Hv : video_path (self w0) = video_path o /\
                 get_stream_index (self w0) "fdsc" = get_stream_index o "fdsc").
    { destruct Hs as [-> | ->]; split; reflexivity. }
    destruct Hv as [Hv Hi].
    unfold retrieve_camera_serial, bind, this. cbn beta iota zeta.
    rewrite Hv, Hi. fold temp. rewrite Hcmd.
    rewrite call_subprocess_eq. rewrite Hf, Hrun. simpl.
    unfold read_after; simpl. rewrite Hdata. rewrite Hdec.
    unfold os_remove; simpl. rewrite Hdata. rewrite Hwr. simpl. reflexivity. }
  split.
  { rewrite (R w); [destruct w; reflexivity | left; reflexivity | reflexivity]. }
  split; [apply isfile_deleted|].
  rewrite process_prepend_eq. cbn zeta. fold o. rewrite Hnone. simpl py_not. cbn iota.
  rewrite R; [|right; reflexivity | reflexivity].
  rewrite rename_video_eq.
  cbn [self fs calls renames with_self video_path filename set_camera_serial].
  fold o. fold new_filename. fold new_video_path.
  rewrite Hren.
  eexists. split; [reflexivity|].
  cbn [self fs calls renames with_self].
  repeat split; try reflexivity.
  apply moved_isfile. exact Hren.
Qed.

(** The scenario of the specification: [GH010042.MP4], whose device-info
    stream is the fifth of the container (index 4, after the telemetry
    stream), with bytes 87..101 spelling [C3221234567890]. *)
Lemma serial_from_device_info_witness :
  let env := Stub.env "C3221234567890" [] (Stub.doc Stub.gopro_streams "2021-06-01T14:05:30Z") in
  let w := Stub.start (Stub.recording (Stub.doc Stub.gopro_streams "2021-06-01T14:05:30Z")
                         "GH010042.MP4" false)
             (Stub.disk "/videos" ["/videos"] ["/videos/GH010042.MP4"]) in
  exists w',
    process_prepend_filename_with_serial env w = (Ok tt, w')
    /\ map fst (calls w') =
         [[ "ffmpeg"; "-v"; "quiet"; "-y"; "-i"; "/videos/GH010042.MP4"; "-codec"; "copy";
            "-map"; "0:4"; "-f"; "rawvideo"; "/videos/GH010042.MP4_fdsc.bin" ]]
    /\ filename (self w') = "C3221234567890_GH010042.MP4"
    /\ isfile (fs w') "/videos/C3221234567890_GH010042.MP4" = true.
Proof.
  intros env w.
  destruct (serial_from_device_info env w
              (take 4 Stub.gopro_streams) []
              {| index := 4; codec_tag_string := "fdsc"; handler_name := Some "GoPro SOS" |}
              (snd (run_tool env
                      (ffmpeg_command "/videos/GH010042.MP4" (Some 4%Z)
                         "/videos/GH010042.MP4_fdsc.bin") (fs w)))
              (Stub.header ++ list_byte_of_string "C3221234567890")
              "C3221234567890")
    as (_ & _ & w' & Hrun & Hcalls & _ & Hname & _ & _ & Hfile);
    try (vm_compute; reflexivity).
  exists w'. split; [exact Hrun|].
  split; [rewrite Hcalls; reflexivity|].
  split; [exact Hname | exact Hfile].
Defined.

(** ** Facts about the pattern search *)

Module ReFacts.
Import Re.

Lemma match_here_length (pat : list charclass) (s m : string) :
  match_here pat s = Some m -> String.length m = length pat.
Proof.
  revert s m. induction pat as [|cl pat IH]; intros s m; simpl.
  - intros [= <-]. reflexivity.
  - destruct s as [|c s]; [discriminate|].
    destruct (cl c); [|discriminate].
    destruct (match_here pat s) as [m'|] eqn:E; [|discriminate].
    intros [= <-]. simpl. f_equal. eapply IH. exact E.
Qed.

Lemma match_here_append (pat : list charclass) (s t m : string) :
  match_here pat s = Some m -> match_here pat (s +:+ t) = Some m.
Proof.
  revert s m. induction pat as [|cl pat IH]; intros s m; simpl; [auto|].
  destruct s as [|c s]; [discriminate|]. simpl.
  destruct (cl c); [|discriminate].
  destruct (match_here pat s) as [m'|] eqn:E; [|discriminate].
  rewrite (IH _ _ E). auto.
Qed.

Lemma search_length (pat : list charclass) (s m : string) :
  search pat s = Some m -> String.length m = length pat.
Proof.
  induction s as [|c s IH]; simpl.
  - destruct (match_here pat "") eqn:E; [|discriminate].
    intros [= <-]. eapply match_here_length. exact E.
  - destruct (match_here pat (String c s)) eqn:E.
    + intros [= <-]. eapply match_here_length. exact E.
    + exact IH.
Qed.

(** A pattern found in a text is found in any extension of it. *)
Lemma search_append (pat : list charclass) (s t m : string) :
  search pat s = Some m -> exists m', search pat (s +:+ t) = Some m'.
Proof.
  induction s as [|c s IH]; simpl.
  - destruct (match_here pat "") eqn:E; [|discriminate]. intros _.
    destruct pat; [|discriminate].
    exists "". destruct t; reflexivity.
  - destruct (match_here pat (String c s)) eqn:E.
    + intros _. apply (match_here_append _ _ t) in E. simpl in E. rewrite E.
      eexists; reflexivity.
    + intros H. destruct (match_here pat (String c (s +:+ t))); [eexists; reflexivity|].
      apply IH. exact H.
Qed.

(** A match needs as many characters as the pattern has classes. *)
Lemma match_here_fits (pat : list charclass) (s m : string) :
  match_here pat s = Some m -> length pat <= String.length s.
Proof.
  revert s m. induction pat as [|cl pat IH]; intros s m; simpl; [lia|].
  destruct s as [|c s]; [discriminate|].
  destruct (cl c); [|discriminate].
  destruct (match_here pat s) as [m'|] eqn:E; [|discriminate].
  intros _. simpl. apply IH in E. lia.
Qed.

Lemma search_fits (pat : list charclass) (s m : string) :
  search pat s = Some m -> length pat <= String.length s.
Proof.
  induction s as [|c s IH]; cbn [search].
  - destruct (match_here pat "") eqn:E; [|discriminate].
    intros _. eapply match_here_fits. exact E.
  - destruct (match_here pat (String c s)) eqn:E.
    + intros _. eapply match_here_fits. exact E.
    + intros H. apply IH in H. simpl. lia.
Qed.

End ReFacts.

Lemma first_search_append (pats : list (list Re.charclass)) (s t m : string) :
  first_search pats s = Some m -> exists m', first_search pats (s +:+ t) = Some m'.
Proof.
  induction pats as [|pat pats IH]; simpl; [discriminate|].
  destruct (Re.search pat s) as [m0|] eqn:E.
  - intros _. destruct (ReFacts.search_append pat s t m0 E) as [m' ->].
    eexists; reflexivity.
  - intros H. destruct (Re.search pat (s +:+ t)); [eexists; reflexivity|].
    apply IH. exact H.
Qed.

(** What the serial table finds is never the empty string. *)
Lemma serial_found_nonempty (name m : string) :
  first_search serial_regex name = Some m -> py_not (Some m) = false.
Proof.
  intros H.
  assert (L : 13 <= String.length m).
  { unfold serial_regex in H. simpl in H.
    repeat match type of H with
    | match Re.search ?p ?s with _ => _ end = _ =>
        let E := fresh "E" in
        destruct (Re.search p s) eqn:E;
        [injection H as <-; apply ReFacts.search_length in E; rewrite E; simpl; lia|]
    end.
    discriminate. }
  simpl. destruct m; [simpl in L; lia|reflexivity].
Qed.

Section SerialPrefixing.

Variable env : environment.

(** Reading the serial does not look at the [camera_serial] attribute. *)
Lemma retrieve_camera_serial_indep (v : option string) (w : world) :
  retrieve_camera_serial env (with_self (set_camera_serial v (self w)) w) =
  (fst (retrieve_camera_serial env w),
   with_self (set_camera_serial v (self w)) (snd (retrieve_camera_serial env w))).
Proof.
  unfold retrieve_camera_serial, bind, this.
  cbn [self fs calls renames with_self video_path set_camera_serial get_stream_index
       ffprobe_streams].
  rewrite !call_subprocess_eq.
  cbn [self fs calls renames with_self].
  destruct (succeeded _); [|reflexivity].
  unfold read_after. cbn [self fs calls renames].
  destruct (files _ !! _); [|reflexivity].
  destruct (decode_utf8 _); [|reflexivity].
  unfold os_remove. cbn [self fs calls renames].
  destruct (files _ !! _); [|reflexivity].
  destruct (negb _); reflexivity.
Qed.

(** The serial step when a pattern of the table occurs in the filename. *)
Lemma prepend_found (w : world) (s : string) :
  filename_contains_serial (self w) = Some s ->
  process_prepend_filename_with_serial env w =
    (Ok tt, with_self (set_camera_serial (Some s) (self w)) w).
Proof.
  intros H. rewrite process_prepend_eq. cbn zeta. rewrite H.
  unfold filename_contains_serial in H.
  rewrite (serial_found_nonempty _ _ H). reflexivity.
Qed.

(** The serial step when no pattern occurs and the serial could be read. *)
Lemma prepend_retrieved (w w1 : world) (serial : string) :
  filename_contains_serial (self w) = None ->
  retrieve_camera_serial env w = (Ok serial, w1) ->
  process_prepend_filename_with_serial env w =
    rename_video (serial +:+ "_" +:+ filename (self w))
      (with_self (set_camera_serial (Some serial) (self w)) w1).
Proof.
  intros Hn Hr. rewrite process_prepend_eq. cbn zeta. rewrite Hn. simpl py_not. cbn iota.
  rewrite retrieve_camera_serial_indep, Hr. reflexivity.
Qed.

End SerialPrefixing.

(** C6 (as the code has it). When no serial pattern occurs in the filename
    and the serial was read from the device-info stream, the video is
    renamed to [<serial>_<filename>]: the filename is the new one, the
    video path and the telemetry path are the old ones with the filename
    replaced, the file is at the new path; and when the rename cannot be
    done its exception comes out of the step. *)
Theorem prepend_serial_renames (env : environment) (w w1 : world) (serial : string) :
  filename_contains_serial (self w) = None ->
  retrieve_camera_serial env w = (Ok serial, w1) ->
  match rename_error (fs w1) (video_path (self w))
          (PyStr.replace (video_path (self w)) (filename (self w))
             (serial +:+ "_" +:+ filename (self w))) with
  | None =>
      exists w',
        process_prepend_filename_with_serial env w = (Ok tt, w')
        /\ filename (self w') = serial +:+ "_" +:+ filename (self w)
        /\ video_path (self w') =
             PyStr.replace (video_path (self w)) (filename (self w))
               (serial +:+ "_" +:+ filename (self w))
        /\ telemetry_path (self w') =
             PyStr.replace (telemetry_path (self w)) (filename (self w))
               (serial +:+ "_" +:+ filename (self w))
        /\ renames w' = renames w ++ [(video_path (self w), video_path (self w'))]
        /\ isfile (fs w') (video_path (self w')) = true
  | Some e =>
      exists w',
        process_prepend_filename_with_serial env w = (Raise e, w')
        /\ renames w' = renames w
        /\ fs w' = fs w1
  end.
Proof.
  intros Hn Hr.
  rewrite (prepend_retrieved env w w1 serial Hn Hr), rename_video_eq.
  pose proof (retrieve_camera_serial_frame env w) as [_ Hren]. rewrite Hr in Hren.
  cbn [self fs calls renames with_self video_path filename set_camera_serial snd] in *.
  destruct (rename_error _ _ _) eqn:E.
  - eexists. split; [reflexivity|]. cbn [renames fs with_self]. split; [exact Hren|reflexivity].
  - eexists. split; [reflexivity|].
    cbn [self fs renames renamed video_path filename telemetry_path
         set_telemetry_path set_video_path set_filename set_camera_serial].
    repeat split; try reflexivity.
    + rewrite Hren. reflexivity.
    + apply moved_isfile. exact E.
Qed.

Lemma prepend_serial_renames_witness :
  let env := Stub.env "C3221234567890" [] (Stub.doc Stub.gopro_streams "2021-06-01T14:05:30Z") in
  let w := Stub.start (Stub.recording (Stub.doc Stub.gopro_streams "2021-06-01T14:05:30Z")
                         "GH010042.MP4" false)
             (Stub.disk "/videos" ["/videos"] ["/videos/GH010042.MP4"]) in
  exists w',
    process_prepend_filename_with_serial env w = (Ok tt, w')
    /\ filename (self w') = "C3221234567890_GH010042.MP4"
    /\ video_path (self w') = "/videos/C3221234567890_GH010042.MP4"
    /\ telemetry_path (self w') = "/videos/C3221234567890_GH010042.MP4.bin".
Proof.
  intros env w.
  pose proof (prepend_serial_renames env w (snd (retrieve_camera_serial env w))
                "C3221234567890" eq_refl) as H.
  assert (E : rename_error (fs (snd (retrieve_camera_serial env w))) (video_path (self w))
                (PyStr.replace (video_path (self w)) (filename (self w))
                   ("C3221234567890" +:+ "_" +:+ filename (self w))) = None)
    by (vm_compute; reflexivity).
  rewrite E in H.
  destruct H as (w' & Hrun & Hf & Hv & Ht & _); [vm_compute; reflexivity|].
  exists w'. split; [exact Hrun|].
  split; [rewrite Hf; reflexivity|].
  split; [rewrite Hv; reflexivity | rewrite Ht; reflexivity].
Defined.

(** C6 (as stated). A filename that holds a serial of the table, but not
    at its start: the serial is obtained from the filename, the filename
    does not start with it, and nothing is renamed. *)
Lemma serial_inside_filename_not_prefixed :
  let env := Stub.env "C3221234567890" [] (Stub.doc Stub.gopro_streams "2021-06-01T14:05:30Z") in
  let w := Stub.start (Stub.recording (Stub.doc Stub.gopro_streams "2021-06-01T14:05:30Z")
                         "GH010042_C3311234567890.MP4" false)
             (Stub.disk "/videos" ["/videos"] ["/videos/GH010042_C3311234567890.MP4"]) in
  filename_contains_serial (self w) = Some "C3311234567890"
  /\ PyStr.startswith "C3311234567890" (filename (self w)) = false
  /\ process_prepend_filename_with_serial env w =
       (Ok tt, with_self (set_camera_serial (Some "C3311234567890") (self w)) w)
  /\ filename (self (snd (process_prepend_filename_with_serial env w)))
       <> "C3311234567890_GH010042_C3311234567890.MP4"
  /\ renames (snd (process_prepend_filename_with_serial env w)) = []
  /\ isfile (fs (snd (process_prepend_filename_with_serial env w)))
       "/videos/C3311234567890_GH010042_C3311234567890.MP4" = false.
Proof.
  vm_compute. repeat split; try reflexivity. discriminate.
Qed.

(** ** Running a normalizer step again *)

Module ReplaceFacts.
Import PyStr PyStrFacts.

(** Where [old] occurs, the result of the scan holds [new]. *)
Lemma replace_scan_holds_new (old new s : string) :
  old <> "" ->
  contains old s = true ->
  exists pre post, replace_scan old new 0 s = pre +:+ new +:+ post.
Proof.
  intros Hne. destruct old as [|a old]; [congruence|]. clear Hne.
  induction s as [|c s IH]; simpl.
  - discriminate.
  - destruct (startswith (String a old) (String c s)) eqn:S.
    + intros _. simpl in S. rewrite S. exists "". eexists. reflexivity.
    + simpl in S. rewrite S. simpl. intros H. destruct (IH H) as (pre & post & E).
      exists (String c pre), post. simpl. rewrite E. reflexivity.
Qed.

End ReplaceFacts.

(** The name the timestamp step gives holds the timestamp, when there is
    an [.MP4] to replace. *)
Lemma timestamped_contains (name : string) (dt : datetime) :
  PyStr.contains ".MP4" name = true ->
  PyStr.contains (DateTime.strftime dt) (timestamped name dt) = true.
Proof.
  intros H. unfold timestamped, PyStr.replace.
  destruct (ReplaceFacts.replace_scan_holds_new ".MP4"
              ("_" +:+ DateTime.strftime dt +:+ ".MP4") name ltac:(discriminate) H)
    as (pre & post & ->).
  rewrite PyStrFacts.append_assoc.
  change (pre +:+ ("_" +:+ DateTime.strftime dt +:+ ".MP4") +:+ post)
    with (pre +:+ "_" +:+ (DateTime.strftime dt +:+ ".MP4") +:+ post).
  rewrite <- (PyStrFacts.append_assoc pre "_").
  rewrite (PyStrFacts.append_assoc (DateTime.strftime dt)).
  apply PyStrFacts.contains_self_append.
Qed.

(** The timestamp step when the timestamp is already in the filename. *)
Lemma append_present (w : world) (ts : string) (dt : datetime) :
  creation_time_tag (ffprobe_streams (self w)) = Some ts ->
  DateTime.parse ts = Some dt ->
  PyStr.contains (DateTime.strftime dt) (filename (self w)) = true ->
  append_filename_with_timestamp w =
    (Ok tt, with_self (set_creation_time (Some dt) (self w)) w).
Proof.
  intros Ht Hp Hc. rewrite append_eq, Ht, Hp. cbn zeta. rewrite Hc. reflexivity.
Qed.

(** C5 (as the code has it). Serial prefixing renames nothing when one of
    the nine patterns occurs in the filename, and timestamp suffixing
    renames nothing when the formatted timestamp occurs in it.  A second
    run of serial prefixing renames nothing provided the serial the first
    run recorded matches one of the nine patterns; a second run of
    timestamp suffixing renames nothing provided the filename held an
    [.MP4] to put the timestamp in front of. *)
Theorem normalizer_idempotent (env : environment) :
  (forall (w : world) (s : string),
      filename_contains_serial (self w) = Some s ->
      process_prepend_filename_with_serial env w =
        (Ok tt, with_self (set_camera_serial (Some s) (self w)) w))
  /\ (forall (w : world) (ts : string) (dt : datetime),
         creation_time_tag (ffprobe_streams (self w)) = Some ts ->
         DateTime.parse ts = Some dt ->
         PyStr.contains (DateTime.strftime dt) (filename (self w)) = true ->
         append_filename_with_timestamp w =
           (Ok tt, with_self (set_creation_time (Some dt) (self w)) w))
  /\ (forall (w w1 : world),
         process_prepend_filename_with_serial env w = (Ok tt, w1) ->
         (forall s, camera_serial (self w1) = Some s ->
                    first_search serial_regex s <> None) ->
         exists w2,
           process_prepend_filename_with_serial env w1 = (Ok tt, w2)
           /\ renames w2 = renames w1 /\ fs w2 = fs w1
           /\ filename (self w2) = filename (self w1)
           /\ length (renames (snd (twice (process_prepend_filename_with_serial env) w)))
              <= S (length (renames w)))
  /\ (forall (w w1 : world),
         append_filename_with_timestamp w = (Ok tt, w1) ->
         PyStr.contains ".MP4" (filename (self w)) = true ->
         exists w2,
           append_filename_with_timestamp w1 = (Ok tt, w2)
           /\ renames w2 = renames w1 /\ fs w2 = fs w1
           /\ filename (self w2) = filename (self w1)
           /\ length (renames (snd (twice append_filename_with_timestamp w)))
              <= S (length (renames w))).
Proof.
  split; [intros w s H; apply prepend_found; exact H|].
  split; [intros w ts dt; apply append_present|].
  split.
  - intros w w1 Hrun Hser.
    assert (F : exists s, filename_contains_serial (self w1) = Some s
                          /\ length (renames w1) <= S (length (renames w))).
    { destruct (filename_contains_serial (self w)) as [s|] eqn:Hf.
      - rewrite (prepend_found env w s Hf) in Hrun. injection Hrun as <-.
        exists s. split; [exact Hf | simpl; lia].
      - pose proof (retrieve_camera_serial_frame env w) as [_ Hren].
        destruct (retrieve_camera_serial env w) as [[serial|e] w0] eqn:Hr.
        + rewrite (prepend_retrieved env w w0 serial Hf Hr), rename_video_eq in Hrun.
          cbn [self fs calls renames with_self video_path filename set_camera_serial snd] in *.
          destruct (rename_error _ _ _); [discriminate|]. injection Hrun as <-.
          cbn [self renames] in *.
          specialize (Hser serial eq_refl).
          destruct (first_search serial_regex serial) as [m|] eqn:Hm; [|congruence].
          destruct (first_search_append serial_regex serial
                      ("_" +:+ filename (self w)) m Hm) as [m' Hm'].
          exists m'. split; [exact Hm'|].
          rewrite length_app, Hren. simpl. lia.
        + rewrite process_prepend_eq in Hrun. cbn zeta in Hrun. rewrite Hf in Hrun.
          simpl py_not in Hrun. cbn iota in Hrun.
          rewrite retrieve_camera_serial_indep, Hr in Hrun. discriminate. }
    destruct F as (s & Hs & Hlen).
    exists (with_self (set_camera_serial (Some s) (self w1)) w1).
    split; [apply prepend_found; exact Hs|].
    repeat split; try reflexivity.
    unfold twice, bind. rewrite Hrun, (prepend_found env w1 s Hs). simpl. exact Hlen.
  - intros w w1 Hrun Hmp4.
    assert (F : exists ts dt,
               creation_time_tag (ffprobe_streams (self w1)) = Some ts
               /\ DateTime.parse ts = Some dt
               /\ PyStr.contains (DateTime.strftime dt) (filename (self w1)) = true
               /\ length (renames w1) <= S (length (renames w))).
    { rewrite append_eq in Hrun.
      destruct (creation_time_tag (ffprobe_streams (self w))) as [ts|] eqn:Ht; [|discriminate].
      destruct (DateTime.parse ts) as [dt|] eqn:Hp; [|discriminate].
      cbn zeta in Hrun. exists ts, dt.
      destruct (PyStr.contains (DateTime.strftime dt) (filename (self w))) eqn:Hc.
      - injection Hrun as <-. cbn [self with_self renames ffprobe_streams set_creation_time filename].
        repeat split; auto.
      - rewrite rename_video_eq in Hrun.
        cbn [self fs calls renames with_self video_path filename set_creation_time] in Hrun.
        destruct (rename_error _ _ _); [discriminate|]. injection Hrun as <-.
        cbn [self renames renamed ffprobe_streams filename set_telemetry_path
             set_video_path set_filename set_creation_time].
        split; [exact Ht|]. split; [exact Hp|].
        split; [apply timestamped_contains; exact Hmp4|].
        rewrite length_app. simpl. lia. }
    destruct F as (ts & dt & Ht & Hp & Hc & Hlen).
    exists (with_self (set_creation_time (Some dt) (self w1)) w1).
    split; [apply (append_present w1 ts dt Ht Hp Hc)|].
    repeat split; try reflexivity.
    unfold twice, bind. rewrite Hrun, (append_present w1 ts dt Ht Hp Hc). simpl. exact Hlen.
Qed.

Lemma normalizer_idempotent_witness :
  let d := Stub.doc Stub.gopro_streams "2021-06-01T14:05:30Z" in
  let env := Stub.env "C3221234567890" [] d in
  let w := Stub.start (Stub.recording d "GH010042.MP4" false)
             (Stub.disk "/videos" ["/videos"] ["/videos/GH010042.MP4"]) in
  length (renames (snd (twice (process_prepend_filename_with_serial env) w))) <= 1
  /\ length (renames (snd (twice append_filename_with_timestamp w))) <= 1
  /\ process_prepend_filename_with_serial env
       (Stub.start (Stub.recording d "C3221234567890_GH010042.MP4" false)
          (Stub.disk "/videos" ["/videos"] ["/videos/C3221234567890_GH010042.MP4"]))
     = (Ok tt,
        Stub.start (set_camera_serial (Some "C3221234567890")
                      (Stub.recording d "C3221234567890_GH010042.MP4" false))
          (Stub.disk "/videos" ["/videos"] ["/videos/C3221234567890_GH010042.MP4"])).
Proof.
  intros d env w.
  destruct (normalizer_idempotent env) as (H1 & _ & H3 & H4).
  split; [|split].
  - destruct (H3 w (snd (process_prepend_filename_with_serial env w)))
      as (w2 & _ & _ & _ & _ & Hlen).
    + vm_compute. reflexivity.
    + intros s Hs. vm_compute in Hs. injection Hs as <-. vm_compute. discriminate.
    + exact Hlen.
  - destruct (H4 w (snd (append_filename_with_timestamp w)))
      as (w2 & _ & _ & _ & _ & Hlen).
    + vm_compute. reflexivity.
    + vm_compute. reflexivity.
    + exact Hlen.
  - apply (H1 (Stub.start (Stub.recording d "C3221234567890_GH010042.MP4" false)
                 (Stub.disk "/videos" ["/videos"] ["/videos/C3221234567890_GH010042.MP4"]))
              "C3221234567890").
    vm_compute. reflexivity.
Defined.

(** C5 (as stated). A camera whose serial starts with [C344], a prefix
    the table does not list: the first run of serial prefixing renames
    [GH010042.MP4] to [C3441234567890_GH010042.MP4], no pattern occurs in
    that name, and the second run reads the serial and renames again. *)
Lemma prepend_twice_renames_twice :
  let env := Stub.env "C3441234567890" [] (Stub.doc Stub.gopro_streams "2021-06-01T14:05:30Z") in
  let w := Stub.start (Stub.recording (Stub.doc Stub.gopro_streams "2021-06-01T14:05:30Z")
                         "GH010042.MP4" false)
             (Stub.disk "/videos" ["/videos"] ["/videos/GH010042.MP4"]) in
  let out := twice (process_prepend_filename_with_serial env) w in
  fst out = Ok tt
  /\ renames (snd out) =
       [("/videos/GH010042.MP4", "/videos/C3441234567890_GH010042.MP4");
        ("/videos/C3441234567890_GH010042.MP4",
         "/videos/C3441234567890_C3441234567890_GH010042.MP4")]
  /\ filename (self (snd out)) = "C3441234567890_C3441234567890_GH010042.MP4"
  /\ ~ length (renames (snd out)) <= S (length (renames w)).
Proof.
  vm_compute. repeat split; try reflexivity. lia.
Qed.

(** ** The timestamp *)

Module DateTimeFacts.
Import DateTime.

Lemma digits_bound (n acc : nat) (s r : string) (v : nat) :
  digits n acc s = Some (v, r) -> v < (acc + 1) * 10 ^ n.
Proof.
  revert acc s. induction n as [|n IH]; intros acc s; simpl.
  - intros [= <- _]. lia.
  - destruct s as [|c s]; [discriminate|].
    unfold digit_val. destruct (Re.digit c) eqn:D; [|discriminate].
    intros H. apply IH in H.
    assert (nat_of_ascii c - 48 <= 9).
    { unfold Re.digit in D. apply andb_true_iff in D as [_ D].
      apply Nat.leb_le in D. lia. }
    nia.
Qed.

Lemma zfill_2_digits (n : nat) : n < 10 ^ 2 -> is_digits 2 (PyStr.zfill 2 n) = true.
Proof.
  intros H.
  assert (A : forallb (fun k => is_digits 2 (PyStr.zfill 2 k)) (seq 0 (10 ^ 2)) = true)
    by (vm_compute; reflexivity).
  rewrite forallb_forall in A. apply A. apply in_seq. lia.
Qed.

(** A year of four digits prints as four digits. *)
Lemma str_nat_4_digits (n : nat) :
  10 ^ 3 <= n -> n < 10 ^ 4 -> is_digits 4 (PyStr.str_nat n) = true.
Proof.
  intros H1 H2.
  assert (A : forallb (fun k => is_digits 4 (PyStr.str_nat k)) (seq (10 ^ 3) (9 * 10 ^ 3)) = true)
    by (vm_compute; reflexivity).
  rewrite forallb_forall in A. apply A. apply in_seq.
  change (10 ^ 4) with (10 * 10 ^ 3) in H2. lia.
Qed.

(** The fields of a [datetime] have the width of their format. *)
Lemma well_formed_bounds (d : datetime) :
  well_formed d = true ->
  year d < 10 ^ 4 /\ month d < 10 ^ 2 /\ day d < 10 ^ 2
  /\ hour d < 10 ^ 2 /\ minute d < 10 ^ 2 /\ second d < 10 ^ 2.
Proof.
  unfold well_formed, valid. intros H.
  repeat (apply andb_true_iff in H; destruct H as [H ?]).
  repeat match goal with
         | X : (_ <=? _)%nat = true |- _ => apply Nat.leb_le in X
         | X : (_ <? _)%nat = true |- _ => apply Nat.ltb_lt in X
         end.
  assert (D : days_in_month (year d) (month d) <= 31).
  { unfold days_in_month.
    destruct (month d) as [|[|[|[|[|[|[|[|[|[|[|[|m]]]]]]]]]]]];
      try destruct (leap (year d)); lia. }
  assert (P : 10 ^ 2 = 100) by reflexivity. rewrite P. lia.
Qed.

(** The fields of a parsed timestamp have the width of their format. *)
Lemma parse_bounds (s : string) (d : datetime) :
  parse s = Some d ->
  year d < 10 ^ 4 /\ month d < 10 ^ 2 /\ day d < 10 ^ 2
  /\ hour d < 10 ^ 2 /\ minute d < 10 ^ 2 /\ second d < 10 ^ 2.
Proof.
  unfold parse. intros H.
  destruct (digits 4 0 s) as [[y s1]|] eqn:E1; cbn [mbind option_bind] in H; [|discriminate].
  destruct (expect "-" s1) as [s2|]; cbn [mbind option_bind] in H; [|discriminate].
  destruct (digits 2 0 s2) as [[mo s3]|] eqn:E2; cbn [mbind option_bind] in H; [|discriminate].
  destruct (expect "-" s3) as [s4|]; cbn [mbind option_bind] in H; [|discriminate].
  destruct (digits 2 0 s4) as [[dd s5]|] eqn:E3; cbn [mbind option_bind] in H; [|discriminate].
  destruct (expect "T" s5) as [s6|]; cbn [mbind option_bind] in H; [|discriminate].
  destruct (digits 2 0 s6) as [[h s7]|] eqn:E4; cbn [mbind option_bind] in H; [|discriminate].
  destruct (expect ":" s7) as [s8|]; cbn [mbind option_bind] in H; [|discriminate].
  destruct (digits 2 0 s8) as [[mi s9]|] eqn:E5; cbn [mbind option_bind] in H; [|discriminate].
  destruct (expect ":" s9) as [s10|]; cbn [mbind option_bind] in H; [|discriminate].
  destruct (digits 2 0 s10) as [[se s11]|] eqn:E6; cbn [mbind option_bind] in H; [|discriminate].
  match type of H with (if ?c then _ else _) = _ => destruct c end; [|discriminate].
  injection H as <-. cbn [year month day hour minute second].
  apply digits_bound in E1, E2, E3, E4, E5, E6.
  rewrite Nat.add_0_l, Nat.mul_1_l in E1, E2, E3, E4, E5, E6. tauto.
Qed.

(** Matching a run of digit classes against a block of digits. *)
Lemma match_digits (n : nat) (d t : string) (rest : list Re.charclass) :
  is_digits n d = true ->
  Re.match_here (repeat Re.digit n ++ rest) (d +:+ t) =
  match Re.match_here rest t with
  | Some m => Some (d +:+ m)
  | None => None
  end.
Proof.
  unfold is_digits. revert d. induction n as [|n IH]; intros d H.
  - apply andb_true_iff in H as [L _]. apply Nat.eqb_eq in L.
    destruct d; [|discriminate]. simpl. destruct (Re.match_here rest t); reflexivity.
  - apply andb_true_iff in H as [L D]. apply Nat.eqb_eq in L.
    destruct d as [|c d]; [discriminate|]. simpl in *.
    apply andb_true_iff in D as [Dc D]. rewrite Dc.
    rewrite IH.
    + destruct (Re.match_here rest t); reflexivity.
    + apply andb_true_iff. split; [apply Nat.eqb_eq; lia | exact D].
Qed.

Lemma match_lit (c : ascii) (t : string) (rest : list Re.charclass) :
  Re.match_here (Re.lit c :: rest) (String c t) =
  match Re.match_here rest t with
  | Some m => Some (String c m)
  | None => None
  end.
Proof. simpl. unfold Re.lit. rewrite Ascii.eqb_refl. reflexivity. Qed.

Lemma is_digits_append (a b : nat) (x y : string) :
  is_digits a x = true -> is_digits b y = true -> is_digits (a + b) (x +:+ y) = true.
Proof.
  unfold is_digits. intros Hx Hy.
  apply andb_true_iff in Hx as [Lx Dx]. apply andb_true_iff in Hy as [Ly Dy].
  apply Nat.eqb_eq in Lx, Ly. apply andb_true_iff. split.
  - apply Nat.eqb_eq. rewrite PyStrFacts.length_append. lia.
  - clear Lx Ly. induction x as [|c x IH]; simpl in *; [exact Dy|].
    apply andb_true_iff in Dx as [Dc Dx]. rewrite Dc. simpl. apply IH. exact Dx.
Qed.

(** After the year a timestamp reads [-MM-DDTHHMMSS]. *)
Lemma timestamp_tail_matches (d : datetime) (rest : list Re.charclass) (t : string) :
  well_formed d = true ->
  Re.match_here (timestamp_tail_shape ++ rest) (timestamp_tail d +:+ t) =
  match Re.match_here rest t with
  | Some m => Some (timestamp_tail d +:+ m)
  | None => None
  end.
Proof.
  intros H. apply well_formed_bounds in H as (_ & Hmo & Hd & Hh & Hmi & Hs).
  unfold timestamp_tail, timestamp_tail_shape.
  pose proof (is_digits_append 2 4 _ _ (zfill_2_digits _ Hh)
                (is_digits_append 2 2 _ _ (zfill_2_digits _ Hmi) (zfill_2_digits _ Hs))) as D6.
  simpl plus in D6.
  rewrite <- !app_assoc. rewrite !PyStrFacts.append_assoc.
  cbn [app]. change ("-" +:+ ?x) with (String "-" x). rewrite match_lit.
  rewrite match_digits by (apply zfill_2_digits; exact Hmo).
  cbn [app]. change ("-" +:+ ?x) with (String "-" x). rewrite match_lit.
  rewrite match_digits by (apply zfill_2_digits; exact Hd).
  cbn [app]. change ("T" +:+ ?x) with (String "T" x). rewrite match_lit.
  rewrite <- !PyStrFacts.append_assoc.
  rewrite (PyStrFacts.append_assoc (PyStr.zfill 2 (hour d))).
  rewrite match_digits by exact D6.
  destruct (Re.match_here rest t); [|reflexivity].
  f_equal. symmetry.
  repeat (rewrite ?PyStrFacts.append_assoc; cbn [String.append]). reflexivity.
Qed.

(** A timestamp is the year followed by [-MM-DDTHHMMSS]; from the year
    1000 on it reads [YYYY-MM-DDTHHMMSS]. *)
Lemma strftime_shape (d : datetime) :
  well_formed d = true ->
  strftime d = PyStr.str_nat (year d) +:+ timestamp_tail d
  /\ Re.match_here timestamp_tail_shape (timestamp_tail d) = Some (timestamp_tail d)
  /\ (10 ^ 3 <= year d ->
      Re.match_here timestamp_shape (strftime d) = Some (strftime d)).
Proof.
  intros H.
  assert (T : Re.match_here timestamp_tail_shape (timestamp_tail d) = Some (timestamp_tail d)).
  { pose proof (timestamp_tail_matches d [] "" H) as M.
    rewrite app_nil_r, !PyStrFacts.append_nil_r in M. cbn [Re.match_here] in M.
    rewrite PyStrFacts.append_nil_r in M. exact M. }
  assert (E : strftime d = PyStr.str_nat (year d) +:+ timestamp_tail d) by reflexivity.
  split; [exact E|]. split; [exact T|].
  intros Hy. rewrite E.
  change timestamp_shape with (repeat Re.digit 4 ++ timestamp_tail_shape).
  rewrite match_digits.
  - rewrite T. reflexivity.
  - apply str_nat_4_digits; [exact Hy|].
    apply well_formed_bounds in H. tauto.
Qed.

End DateTimeFacts.

(** C8 (as the code has it). Whatever text the date parser accepts as
    the creation time of the container metadata, the datetime it returns
    is printed by [strftime("%Y-%m-%dT%H%M%S")]: the year as it is,
    followed by [-MM-DDTHHMMSS], which reads [YYYY-MM-DDTHHMMSS] from the
    year 1000 on.  When that text is not in the filename, the new filename
    is the old one with every [.MP4] replaced by [_<timestamp>.MP4]:
    [<stem>_<timestamp>.MP4] for a filename [<stem>.MP4] that holds [.MP4]
    only as its extension, both of them replaced when it holds two, and
    the old name itself when it holds none.  The video is renamed to the
    new filename, the video path and the telemetry path following by
    replacement, and a rename that cannot be done raises. *)
Theorem append_timestamp_renames (parse : string -> option datetime) (w : world)
    (ts : string) (dt : datetime) :
  creation_time_tag (ffprobe_streams (self w)) = Some ts ->
  parse ts = Some dt ->
  DateTime.well_formed dt = true ->
  PyStr.contains (DateTime.strftime dt) (filename (self w)) = false ->
  (DateTime.strftime dt = PyStr.str_nat (year dt) +:+ timestamp_tail dt
   /\ Re.match_here timestamp_tail_shape (timestamp_tail dt) = Some (timestamp_tail dt)
   /\ (10 ^ 3 <= year dt ->
       Re.match_here timestamp_shape (DateTime.strftime dt) = Some (DateTime.strftime dt)))
  /\ (forall stem,
        filename (self w) = stem +:+ ".MP4" ->
        PyStr.occurrences ".MP4" (filename (self w)) = 1 ->
        timestamped (filename (self w)) dt = stem +:+ "_" +:+ DateTime.strftime dt +:+ ".MP4")
  /\ (forall a b,
        filename (self w) = a +:+ ".MP4" +:+ b +:+ ".MP4" ->
        PyStr.occurrences ".MP4" (a +:+ ".MP4") = 1 ->
        PyStr.occurrences ".MP4" (b +:+ ".MP4") = 1 ->
        timestamped (filename (self w)) dt =
          a +:+ "_" +:+ DateTime.strftime dt +:+ ".MP4"
          +:+ b +:+ "_" +:+ DateTime.strftime dt +:+ ".MP4")
  /\ (PyStr.contains ".MP4" (filename (self w)) = false ->
      timestamped (filename (self w)) dt = filename (self w))
  /\ match rename_error (fs w) (video_path (self w))
             (PyStr.replace (video_path (self w)) (filename (self w))
                (timestamped (filename (self w)) dt)) with
     | None =>
         exists w',
           append_filename_with_timestamp_with parse w = (Ok tt, w')
           /\ creation_time (self w') = Some dt
           /\ filename (self w') =
                PyStr.replace (filename (self w)) ".MP4"
                  ("_" +:+ DateTime.strftime dt +:+ ".MP4")
           /\ video_path (self w') =
                PyStr.replace (video_path (self w)) (filename (self w)) (filename (self w'))
           /\ telemetry_path (self w') =
                PyStr.replace (telemetry_path (self w)) (filename (self w)) (filename (self w'))
           /\ renames w' = renames w ++ [(video_path (self w), video_path (self w'))]
           /\ isfile (fs w') (video_path (self w')) = true
     | Some e =>
         exists w',
           append_filename_with_timestamp_with parse w = (Raise e, w')
           /\ renames w' = renames w
           /\ fs w' = fs w
     end.
Proof.
  intros Ht Hp Hwf Hc.
  split; [apply DateTimeFacts.strftime_shape; exact Hwf|].
  split.
  { intros stem Hname Hocc. unfold timestamped. rewrite Hname in Hocc |- *.
    pose proof (PyStrFacts.replace_unique ".MP4"
                  ("_" +:+ DateTime.strftime dt +:+ ".MP4") stem "" Hocc eq_refl) as R.
    rewrite !PyStrFacts.append_nil_r in R. exact R. }
  split.
  { intros a b Hname Ha Hb. unfold timestamped, PyStr.replace. rewrite Hname.
    rewrite (PyStrFacts.replace_scan_unique ".MP4" _ a (b +:+ ".MP4"))
      by (discriminate || exact Ha).
    pose proof (PyStrFacts.replace_scan_unique ".MP4"
                  ("_" +:+ DateTime.strftime dt +:+ ".MP4") b "" ltac:(discriminate)) as R.
    rewrite !PyStrFacts.append_nil_r in R. specialize (R Hb).
    cbn [PyStr.replace_scan] in R. rewrite ?PyStrFacts.append_nil_r in R.
    rewrite R. repeat (rewrite ?PyStrFacts.append_assoc; cbn [String.append]).
    reflexivity. }
  split.
  { intros Hno. unfold timestamped, PyStr.replace.
    apply PyStrFacts.replace_scan_absent. exact Hno. }
  rewrite append_with_eq, Ht, Hp. cbn zeta. rewrite Hc.
  rewrite rename_video_eq.
  cbn [self fs calls renames with_self video_path filename set_creation_time].
  destruct (rename_error _ _ _) eqn:E.
  - eexists. split; [reflexivity|]. split; reflexivity.
  - eexists. split; [reflexivity|].
    cbn [self fs renames renamed video_path filename telemetry_path creation_time
         set_telemetry_path set_video_path set_filename set_creation_time].
    repeat split; try reflexivity.
    apply moved_isfile. exact E.
Qed.

(** The scenario of the specification: creation time
    [2021-06-01T14:05:30Z], filename [GH010042.MP4]. *)
Lemma append_timestamp_renames_witness :
  let w := Stub.start (Stub.recording (Stub.doc Stub.gopro_streams "2021-06-01T14:05:30Z")
                         "GH010042.MP4" false)
             (Stub.disk "/videos" ["/videos"] ["/videos/GH010042.MP4"]) in
  DateTime.strftime
    {| year := 2021; month := 6; day := 1; hour := 14; minute := 5; second := 30 |}
  = "2021-06-01T140530"
  /\ exists w',
       append_filename_with_timestamp w = (Ok tt, w')
       /\ filename (self w') = "GH010042_2021-06-01T140530.MP4"
       /\ isfile (fs w') "/videos/GH010042_2021-06-01T140530.MP4" = true.
Proof.
  intros w.
  pose proof (append_timestamp_renames DateTime.parse w "2021-06-01T14:05:30Z"
                {| year := 2021; month := 6; day := 1; hour := 14; minute := 5; second := 30 |}
                eq_refl eq_refl eq_refl eq_refl) as (_ & Hstem & _ & _ & H).
  split; [reflexivity|].
  specialize (Hstem "GH010042" eq_refl eq_refl).
  assert (E : rename_error (fs w) (video_path (self w))
                (PyStr.replace (video_path (self w)) (filename (self w))
                   (timestamped (filename (self w))
                      {| year := 2021; month := 6; day := 1;
                         hour := 14; minute := 5; second := 30 |})) = None)
    by (vm_compute; reflexivity).
  rewrite E in H. destruct H as (w' & Hrun & _ & Hname & Hpath & _ & _ & Hfile).
  exists w'. split; [exact Hrun|].
  split; [rewrite Hname; reflexivity|].
  rewrite Hpath, Hname in Hfile. exact Hfile.
Defined.

(** C8 (as stated). A recording whose extension is written in lower
    case: the timestamp is not in the filename, yet no [.MP4] is found to
    put it in front of, the "new" name is the old one, and the file is
    renamed onto itself. *)
Lemma append_timestamp_other_extension :
  let env := Stub.env "" [] (Stub.doc Stub.gopro_streams "2021-06-01T14:05:30Z") in
  let disk := Stub.disk "/videos" ["/videos"] ["/videos/GH010042.mp4"] in
  match GoProTelemetry env disk "/videos/GH010042.mp4" false false true "config.yml" with
  | Ran r w =>
      r = Ok tt
      /\ option_map DateTime.strftime (creation_time (self w)) = Some "2021-06-01T140530"
      /\ PyStr.contains "2021-06-01T140530" "GH010042.mp4" = false
      /\ filename (self w) = "GH010042.mp4"
      /\ filename (self w) <> "GH010042_2021-06-01T140530.mp4"
      /\ renames w = [("/videos/GH010042.mp4", "/videos/GH010042.mp4")]
      /\ isfile (fs w) "/videos/GH010042_2021-06-01T140530.mp4" = false
  | NotConstructed _ => False
  end.
Proof.
  vm_compute. repeat split; try reflexivity. discriminate.
Qed.

(** ** Paths after a rename *)

Module OsPathFacts.
Import OsPath.

Lemma join_relative (dir name : string) :
  isabs name = false -> join dir name = dir_prefix dir +:+ name.
Proof.
  intros H. unfold join, dir_prefix. rewrite H.
  destruct ((String.length dir =? 0)%nat || endswith_sep dir); [reflexivity|].
  rewrite PyStrFacts.append_assoc. reflexivity.
Qed.

Lemma isabs_append (name ext : string) :
  isabs ext = false -> isabs (name +:+ ext) = isabs name.
Proof.
  intros H. destruct name as [|c name]; simpl; [exact H|].
  unfold isabs. simpl. destruct (Ascii.eqb "/" c); reflexivity.
Qed.

Lemma join_append (dir name ext : string) :
  isabs ext = false -> join dir (name +:+ ext) = join dir name +:+ ext.
Proof.
  intros H. unfold join. rewrite (isabs_append name ext H).
  destruct (isabs name); [reflexivity|].
  destruct ((String.length dir =? 0)%nat || endswith_sep dir);
    rewrite ?PyStrFacts.append_assoc; reflexivity.
Qed.

End OsPathFacts.

(** Replacing a filename that occurs once in [join dir name]: the video
    path and the path of the telemetry next to it. *)
Lemma replace_in_joined (dir name new : string) :
  OsPath.isabs name = false ->
  OsPath.isabs new = false ->
  PyStr.occurrences name (OsPath.join dir name) = 1 ->
  PyStr.replace (OsPath.join dir name) name new = OsPath.join dir new
  /\ (PyStr.contains name ".bin" = false ->
      PyStr.replace (OsPath.join dir name +:+ ".bin") name new = OsPath.join dir new +:+ ".bin").
Proof.
  intros Hn Hnew Hocc.
  rewrite (OsPathFacts.join_relative dir name Hn) in *.
  rewrite (OsPathFacts.join_relative dir new Hnew).
  split.
  - destruct name as [|c name].
    + rewrite PyStrFacts.append_nil_r in *.
      destruct (dir_prefix dir) as [|a p]; [reflexivity|].
      pose proof (PyStrFacts.occurrences_suffix "" p) as G.
      rewrite PyStrFacts.append_nil_r in G. simpl in Hocc. lia.
    + pose proof (PyStrFacts.replace_unique (String c name) new (dir_prefix dir) ""
                    Hocc eq_refl) as R.
      rewrite !PyStrFacts.append_nil_r in R. exact R.
  - intros Hb.
    pose proof (PyStrFacts.replace_unique name new (dir_prefix dir) ".bin" Hocc Hb) as R.
    rewrite <- !PyStrFacts.append_assoc in R. exact R.
Qed.

Section Outcome.

Variable env : environment.

(** What a normalizer step that returns has done: nothing to the paths,
    or one rename, with both stored paths obtained by replacing the old
    filename by the new one in the whole old path. *)
Lemma normalizer_outcome (n : normalizer_step) (w w' : world) :
  run_normalizer env n w = (Ok tt, w') ->
  (same_paths (self w') (self w) /\ renames w' = renames w /\ fs w' = fs w)
  \/ (video_dir (self w') = video_dir (self w)
      /\ video_path (self w') =
           PyStr.replace (video_path (self w)) (filename (self w)) (filename (self w'))
      /\ telemetry_path (self w') =
           PyStr.replace (telemetry_path (self w)) (filename (self w)) (filename (self w'))
      /\ renames w' = renames w ++ [(video_path (self w), video_path (self w'))]
      /\ isfile (fs w') (video_path (self w')) = true).
Proof.
  destruct n; simpl; intros Hrun.
  - destruct (filename_contains_serial (self w)) as [s|] eqn:Hf.
    + rewrite (prepend_found env w s Hf) in Hrun. injection Hrun as <-.
      left. repeat split; reflexivity.
    + pose proof (retrieve_camera_serial_frame env w) as [Hs Hren].
      destruct (retrieve_camera_serial env w) as [[serial|e] w0] eqn:Hr.
      * rewrite (prepend_retrieved env w w0 serial Hf Hr), rename_video_eq in Hrun.
        cbn [self fs calls renames with_self video_path filename set_camera_serial snd] in *.
        destruct (rename_error _ _ _) eqn:E; [discriminate|]. injection Hrun as <-.
        right.
        cbn [self fs renames renamed video_dir video_path filename telemetry_path
             set_telemetry_path set_video_path set_filename set_camera_serial].
        rewrite Hren. repeat split; try reflexivity.
        apply moved_isfile. exact E.
      * rewrite process_prepend_eq in Hrun. cbn zeta in Hrun. rewrite Hf in Hrun.
        simpl py_not in Hrun. cbn iota in Hrun.
        rewrite retrieve_camera_serial_indep, Hr in Hrun. discriminate.
  - rewrite append_eq in Hrun.
    destruct (creation_time_tag (ffprobe_streams (self w))) as [ts|]; [|discriminate].
    destruct (DateTime.parse ts) as [dt|]; [|discriminate].
    cbn zeta in Hrun.
    destruct (PyStr.contains (DateTime.strftime dt) (filename (self w))).
    + injection Hrun as <-. left. repeat split; reflexivity.
    + rewrite rename_video_eq in Hrun.
      cbn [self fs calls renames with_self video_path filename set_creation_time] in Hrun.
      destruct (rename_error _ _ _) eqn:E; [discriminate|]. injection Hrun as <-.
      right.
      cbn [self fs renames renamed video_dir video_path filename telemetry_path
           set_telemetry_path set_video_path set_filename set_creation_time].
      repeat split; try reflexivity.
      apply moved_isfile. exact E.
Qed.

End Outcome.

Lemma target_in_dir (s : step) (o : obj) :
  telemetry_path o = OsPath.join (video_dir o) (filename o +:+ ".bin") ->
  target s o = OsPath.join (video_dir o) (filename o +:+ extension s).
Proof. intros H. destruct s; simpl; [exact H | reflexivity..]. Qed.

(** Where the stored paths do follow a rename.  Let the video sit in
    [video_dir] under [filename] with its telemetry path next to it, let the filename occur
    exactly once in the video path and not inside [.bin], and let neither
    the old nor the new filename begin with a separator.  Then after a
    normalizer step that returns, the video path and the five artifact
    paths (bin, gpx, json, csv, kml) are again [video_dir] joined with the
    current filename (plus the extension): all of them use the new
    filename. *)
Theorem derived_paths_follow_rename (env : environment) (n : normalizer_step)
    (w w' : world) :
  placed (self w) ->
  OsPath.isabs (filename (self w)) = false ->
  PyStr.occurrences (filename (self w)) (video_path (self w)) = 1 ->
  PyStr.contains (filename (self w)) ".bin" = false ->
  run_normalizer env n w = (Ok tt, w') ->
  OsPath.isabs (filename (self w')) = false ->
  placed (self w')
  /\ video_dir (self w') = video_dir (self w)
  /\ forall s : step,
       target s (self w') =
       OsPath.join (video_dir (self w')) (filename (self w') +:+ extension s).
Proof.
  intros [Hv Ht] Habs Hocc Hbin Hrun Habs'.
  assert (P : placed (self w') /\ video_dir (self w') = video_dir (self w)).
  { destruct (normalizer_outcome env n w w' Hrun)
      as [[(Hd & Hf & Hvp & Htp) _] | (Hd & Hvp & Htp & _)].
    - split; [|exact Hd]. unfold placed. rewrite Hd, Hf, Hvp, Htp. split; assumption.
    - split; [|exact Hd]. unfold placed. rewrite Hvp, Htp, Hd.
      rewrite Hv in Hocc.
      destruct (replace_in_joined (video_dir (self w)) (filename (self w))
                  (filename (self w')) Habs Habs' Hocc) as [R1 R2].
      rewrite Hv, Ht. split; [exact R1|].
      rewrite !OsPathFacts.join_append by reflexivity.
      apply R2. exact Hbin. }
  destruct P as [P Hd]. split; [exact P|]. split; [exact Hd|].
  intros s. apply target_in_dir. apply P.
Qed.

Lemma derived_paths_follow_rename_witness :
  let d := Stub.doc Stub.gopro_streams "2021-06-01T14:05:30Z" in
  let env := Stub.env "C3221234567890" [] d in
  let w := Stub.start (Stub.recording d "GH010042.MP4" false)
             (Stub.disk "/videos" ["/videos"] ["/videos/GH010042.MP4"]) in
  let w' := snd (process_prepend_filename_with_serial env w) in
  filename (self w') = "C3221234567890_GH010042.MP4"
  /\ forall s : step,
       target s (self w') =
       OsPath.join "/videos" ("C3221234567890_GH010042.MP4" +:+ extension s).
Proof.
  intros d env w w'.
  destruct (derived_paths_follow_rename env PrependSerial w w') as (_ & _ & H);
    try (vm_compute; reflexivity).
  - split; vm_compute; reflexivity.
  - split; [vm_compute; reflexivity|]. exact H.
Defined.

(** C4. After a rename every derived path is to be the directory of the
    video joined with the new filename.  The two stored paths are not
    rebuilt that way: both normalizer methods replace the old filename in
    the whole path, while the four converters join [video_dir], which is
    never assigned again.  For a recording kept in a directory that bears
    the recording's own name, with a directory of the new name next to it,
    the replacement rewrites the directory part as well: the rename
    succeeds and moves the video into the other directory, the telemetry
    path follows it there, while the paths of the four converted files
    stay in the old directory, whose name is the filename from before the
    rename. *)
Lemma rename_rewrites_directory_part :
  let env := Stub.env "" [] (Stub.doc Stub.gopro_streams "2021-06-01T14:05:30Z") in
  let disk := Stub.disk "/data"
                ["/data"; "/data/GH010042.MP4"; "/data/GH010042_2021-06-01T140530.MP4"]
                ["/data/GH010042.MP4/GH010042.MP4"] in
  match GoProTelemetry env disk "/data/GH010042.MP4/GH010042.MP4" false false true
          "config.yml" with
  | Ran r w =>
      r = Ok tt
      /\ renames w =
           [("/data/GH010042.MP4/GH010042.MP4",
             "/data/GH010042_2021-06-01T140530.MP4/GH010042_2021-06-01T140530.MP4")]
      /\ filename (self w) = "GH010042_2021-06-01T140530.MP4"
      /\ video_dir (self w) = "/data/GH010042.MP4"
      /\ target Telemetry (self w) =
           "/data/GH010042_2021-06-01T140530.MP4/GH010042_2021-06-01T140530.MP4.bin"
      /\ target Gpx (self w) = "/data/GH010042.MP4/GH010042_2021-06-01T140530.MP4.gpx"
      /\ target Telemetry (self w) <>
           OsPath.join (video_dir (self w)) (filename (self w) +:+ extension Telemetry)
      /\ video_path (self w) <> OsPath.join (video_dir (self w)) (filename (self w))
      /\ PyStr.contains "GH010042.MP4" (target Gpx (self w)) = true
  | NotConstructed _ => False
  end.
Proof.
  vm_compute. repeat split; try reflexivity; discriminate.
Qed.

(** C10 (as the code has it). A normalizer step that returns has either
    renamed nothing, or set both stored paths to the old ones with every
    occurrence of the old filename replaced by the new one.  In the second
    case, when the video path is [video_dir] joined with the filename, the
    filename occurs exactly once in it, and neither filename begins with a
    separator, the new video path is [video_dir] joined with the new
    filename; and when moreover the telemetry path was the video path plus
    [.bin] (the video was given by its absolute path) and the filename
    does not occur inside [.bin], the new telemetry path is the new video
    path plus [.bin]. *)
Theorem rename_by_replacement (env : environment) (n : normalizer_step) (w w' : world) :
  run_normalizer env n w = (Ok tt, w') ->
  (same_paths (self w') (self w) /\ renames w' = renames w)
  \/ (video_path (self w') =
        PyStr.replace (video_path (self w)) (filename (self w)) (filename (self w'))
      /\ telemetry_path (self w') =
           PyStr.replace (telemetry_path (self w)) (filename (self w)) (filename (self w'))
      /\ renames w' = renames w ++ [(video_path (self w), video_path (self w'))]
      /\ (video_path (self w) = OsPath.join (video_dir (self w)) (filename (self w)) ->
          PyStr.occurrences (filename (self w)) (video_path (self w)) = 1 ->
          OsPath.isabs (filename (self w)) = false ->
          OsPath.isabs (filename (self w')) = false ->
          video_path (self w') = OsPath.join (video_dir (self w')) (filename (self w'))
          /\ (telemetry_path (self w) = video_path (self w) +:+ ".bin" ->
              PyStr.contains (filename (self w)) ".bin" = false ->
              telemetry_path (self w') = video_path (self w') +:+ ".bin"))).
Proof.
  intros Hrun.
  destruct (normalizer_outcome env n w w' Hrun)
    as [(Hs & Hr & _) | (Hd & Hvp & Htp & Hr & _)]; [left; split; assumption|].
  right. split; [exact Hvp|]. split; [exact Htp|]. split; [exact Hr|].
  intros Hv Hocc Habs Habs'.
  rewrite Hv in Hocc.
  destruct (replace_in_joined (video_dir (self w)) (filename (self w))
              (filename (self w')) Habs Habs' Hocc) as [R1 R2].
  assert (V : video_path (self w') = OsPath.join (video_dir (self w')) (filename (self w'))).
  { rewrite Hvp at 1. rewrite Hv, Hd. exact R1. }
  split; [exact V|].
  intros Ht Hbin. rewrite Htp, Ht, Hv, V, Hd. apply R2. exact Hbin.
Qed.

Lemma rename_by_replacement_witness :
  let d := Stub.doc Stub.gopro_streams "2021-06-01T14:05:30Z" in
  let env := Stub.env "C3221234567890" [] d in
  let w := Stub.start (Stub.recording d "GH010042.MP4" false)
             (Stub.disk "/videos" ["/videos"] ["/videos/GH010042.MP4"]) in
  let w' := snd (run_normalizer env AppendTimestamp w) in
  video_path (self w') = OsPath.join "/videos" "GH010042_2021-06-01T140530.MP4"
  /\ telemetry_path (self w') = video_path (self w') +:+ ".bin".
Proof.
  intros d env w w'.
  destruct (rename_by_replacement env AppendTimestamp w w') as [[_ Hr] | (_ & _ & _ & H)].
  - vm_compute. reflexivity.
  - vm_compute in Hr. discriminate.
  - destruct H as [Hv Ht]; try (vm_compute; reflexivity).
    split; [exact Hv|]. apply Ht; vm_compute; reflexivity.
Defined.

(** C10 (as stated). A recording given by a relative path: its filename
    occurs exactly once in its absolute path and the new video path is the
    directory joined with the new filename, but the telemetry path was
    built from the path as given, and after the rename it is the relative
    [C3221234567890_GH010042.MP4.bin], not the video path plus [.bin]. *)
Lemma relative_telemetry_path :
  let env := Stub.env "C3221234567890" [] (Stub.doc Stub.gopro_streams "2021-06-01T14:05:30Z") in
  let disk := Stub.disk "/videos" ["/videos"] ["/videos/GH010042.MP4"] in
  match new_object env disk "GH010042.MP4" false "config.yml" with
  | Ok o =>
      video_path o = "/videos/GH010042.MP4"
      /\ PyStr.occurrences (filename o) (video_path o) = 1
      /\ match process_prepend_filename_with_serial env (Stub.start o disk) with
         | (r, w) =>
             r = Ok tt
             /\ filename (self w) = "C3221234567890_GH010042.MP4"
             /\ video_path (self w) = OsPath.join (video_dir (self w)) (filename (self w))
             /\ telemetry_path (self w) = "C3221234567890_GH010042.MP4.bin"
             /\ telemetry_path (self w) <> video_path (self w) +:+ ".bin"
         end
  | Raise _ => False
  end.
Proof.
  vm_compute. repeat split; try reflexivity; discriminate.
Qed.

(** ** What the constructor guarantees about the filename *)

(** A filename in which the recording id was found is too long to occur
    inside [.bin]. *)
Lemma constructed_filename_not_in_bin (name path b : string) :
  get_basename name path = Ok b -> PyStr.contains name ".bin" = false.
Proof.
  unfold get_basename. destruct (Re.search basename_regex name) as [m|] eqn:E; [|discriminate].
  intros _.
  assert (L : 8 <= String.length name).
  { apply ReFacts.search_fits in E. exact E. }
  destruct (PyStr.contains name ".bin") eqn:C; [|reflexivity].
  apply PyStrFacts.contains_length in C. simpl in C. lia.
Qed.

(** [os.path.basename] never begins with a separator. *)
Lemma basename_go_relative (cur p : string) :
  OsPath.isabs cur = false -> OsPath.isabs (OsPath.basename_go cur p) = false.
Proof.
  revert cur. induction p as [|c p IH]; intros cur H; simpl; [exact H|].
  destruct (Ascii.eqb c OsPath.sep) eqn:E.
  - apply IH. reflexivity.
  - apply IH. destruct cur as [|a cur]; [|exact H].
    unfold OsPath.isabs. cbn [String.append PyStr.startswith].
    unfold OsPath.sep in E. rewrite Ascii.eqb_sym, E. reflexivity.
Qed.

Lemma new_object_filename (env : environment) (f : filesystem) (p cfg : string)
    (force : bool) (o : obj) :
  new_object env f p force cfg = Ok o ->
  OsPath.isabs (filename o) = false
  /\ PyStr.contains (filename o) ".bin" = false
  /\ telemetry_path o = p +:+ ".bin"
  /\ video_path o = OsPath.abspath (cwd f) p.
Proof.
  unfold new_object.
  destruct (negb (isfile f p)); [discriminate|].
  destruct (run_ffprobe env _ f); [|discriminate].
  destruct (found_gopro_indicator _) as [[|]|]; try discriminate.
  destruct (load_config env cfg f); [|discriminate].
  destruct (get_basename _ _) as [b|] eqn:B; [|discriminate].
  intros [= <-]. cbn [filename telemetry_path video_path].
  split; [apply basename_go_relative; reflexivity|].
  split; [eapply constructed_filename_not_in_bin; exact B|].
  split; reflexivity.
Qed.

(** ** Checks of the model on concrete values *)

Example replace_examples :
  PyStr.replace "/d/a.MP4" "a.MP4" "s_a.MP4" = "/d/s_a.MP4"
  /\ PyStr.replace "abc" "" "-" = "-a-b-c-"
  /\ PyStr.replace "aaa" "aa" "b" = "ba"
  /\ PyStr.replace "GH010042.MP4.MP4" ".MP4" "_t.MP4" = "GH010042_t.MP4_t.MP4".
Proof. repeat split; reflexivity. Qed.

Example path_examples :
  OsPath.abspath "/home/u" "v/../GH010042.MP4/.." = "/home/u"
  /\ OsPath.abspath "/home/u" "//x/./y/" = "//x/y"
  /\ OsPath.abspath "/videos" (OsPath.join "GH010042.MP4" "..") = "/videos"
  /\ OsPath.dirname "/a/b/c.MP4" = "/a/b"
  /\ OsPath.dirname "/c" = "/"
  /\ OsPath.basename "/a/b/c.MP4" = "c.MP4"
  /\ OsPath.join "/" "a" = "/a"
  /\ OsPath.join "/v" "/a" = "/a".
Proof. repeat split; reflexivity. Qed.

Example search_examples :
  first_search serial_regex "C3221234567890_GH010042.MP4" = Some "C3221234567890"
  /\ first_search serial_regex "GH010042.MP4" = None
  /\ first_search serial_regex "GH310042_2021-06-01T140530.MP4" = Some "H310042_2021-06"
  /\ Re.search basename_regex "C3221234567890_GH010042.MP4" = Some "GH010042"
  /\ PyStr.str_int 12 = "12"
  /\ str_index None = "None"
  /\ DateTime.parse "2021-02-30T14:05:30Z" = None
  /\ option_map DateTime.strftime (DateTime.parse "2021-06-01T14:05:30.000000Z")
     = Some "2021-06-01T140530".
Proof. repeat split; reflexivity. Qed.

Example decode_examples :
  decode_utf8 (list_byte_of_string "C3221234567890") = Some "C3221234567890"
  /\ decode_utf8 [Byte.xc3; Byte.xa9] = Some (String (ascii_of_nat 233) "")
  /\ decode_utf8 [Byte.xff] = None.
Proof. repeat split; reflexivity. Qed.

(** The constructor on [/videos/GH010042.MP4] builds the object the
    examples start from. *)
Example constructor_builds_recording :
  let d := Stub.doc Stub.gopro_streams "2021-06-01T14:05:30Z" in
  new_object (Stub.env "" [] d) (Stub.disk "/videos" ["/videos"] ["/videos/GH010042.MP4"])
    "/videos/GH010042.MP4" false "config.yml"
  = Ok (Stub.recording d "GH010042.MP4" false).
Proof. reflexivity. Qed.

(** A whole run with both renames: five tool invocations after the serial
    was read, every artifact named after the final filename. *)
Example full_run :
  let d := Stub.doc Stub.gopro_streams "2021-06-01T14:05:30Z" in
  match GoProTelemetry (Stub.env "C3221234567890" [] d)
          (Stub.disk "/videos" ["/videos"] ["/videos/GH010042.MP4"])
          "/videos/GH010042.MP4" false true true "config.yml" with
  | Ran r w =>
      r = Ok tt
      /\ filename (self w) = "C3221234567890_GH010042_2021-06-01T140530.MP4"
      /\ map (fun c => hd "" (fst c)) (calls w)
         = ["ffmpeg"; "ffmpeg"; "/opt/gopro2gpx"; "/opt/gopro2json"; "/opt/gopro2csv";
            "/opt/gps2kml"]
      /\ forallb (fun s => isfile (fs w) (target s (self w))) [Telemetry; Gpx; Json; Csv; Kml]
         = true
      /\ isfile (fs w) "/videos/GH010042.MP4_fdsc.bin" = false
  | NotConstructed _ => False
  end.
Proof. vm_compute. repeat split; reflexivity. Qed.

(** A converter that fails in the middle: JSON exits with 3, CSV and KML
    never run. *)
Example failing_converter :
  let d := Stub.doc Stub.gopro_streams "2021-06-01T14:05:30Z" in
  match GoProTelemetry (Stub.env "" [("/opt/gopro2json", 3%Z)] d)
          (Stub.disk "/videos" ["/videos"] ["/videos/GH010042.MP4"])
          "/videos/GH010042.MP4" true false false "config.yml" with
  | Ran r w =>
      r = Raise (CalledProcessError 3
                   "/opt/gopro2json -i /videos/GH010042.MP4.bin -o /videos/GH010042.MP4.json")
      /\ map (fun c => hd "" (fst c)) (calls w) = ["ffmpeg"; "/opt/gopro2gpx"; "/opt/gopro2json"]
  | NotConstructed _ => False
  end.
Proof. vm_compute. repeat split; reflexivity. Qed.

(** ** Lookups in the container metadata *)

(** X1. [get_stream_index] returns the index of the first stream, in the
    order of the prober's list, whose codec tag is the one asked for, and
    [None] exactly when no stream carries that tag. *)
Theorem get_stream_index_first (o : obj) (tag : string) :
  match get_stream_index o tag with
  | Some i =>
      exists before s after,
        streams (ffprobe_streams o) = before ++ s :: after
        /\ codec_tag_string s = tag /\ index s = i
        /\ Forall (fun x => codec_tag_string x <> tag) before
  | None => Forall (fun x => codec_tag_string x <> tag) (streams (ffprobe_streams o))
  end.
Proof.
  unfold get_stream_index. induction (streams (ffprobe_streams o)) as [|s l IH]; simpl.
  - constructor.
  - destruct (String.eqb_spec (codec_tag_string s) tag) as [E|N].
    + exists [], s, l. repeat split; auto.
    + destruct (find_stream_index l tag) as [i|].
      * destruct IH as (before & s' & after & -> & Ht & Hi & Hf).
        exists (s :: before), s', after. repeat split; auto.
      * constructor; assumption.
Qed.

(** X2. The scan of [ensure_valid_gopro_video] reads the handler name of
    every stream up to the first one that holds the marker [GoPro]: it
    finds the marker when such a stream exists and every stream before it
    has a handler name; it raises [KeyError] at the first stream without a
    handler name when no marker came before it, even if a later stream
    holds the marker; it reports no marker only when every stream has a
    handler name and none holds the marker. *)
Theorem gopro_indicator_scan (l : list stream) :
  match found_gopro_indicator l with
  | Ok true =>
      exists before s after,
        l = before ++ s :: after /\ has_marker s = true
        /\ Forall (fun x => has_handler x = true /\ has_marker x = false) before
  | Ok false => Forall (fun x => has_handler x = true /\ has_marker x = false) l
  | Raise e =>
      e = KeyError "handler_name"
      /\ exists before s after,
           l = before ++ s :: after /\ handler_name s = None
           /\ Forall (fun x => has_handler x = true /\ has_marker x = false) before
  end.
Proof.
  induction l as [|s l IH]; simpl.
  - constructor.
  - destruct (handler_name s) as [h|] eqn:H.
    + destruct (PyStr.contains "GoPro" h) eqn:C.
      * exists [], s, l. repeat split; auto. unfold has_marker. rewrite H. exact C.
      * assert (Hs : has_handler s = true /\ has_marker s = false).
        { unfold has_handler, has_marker. rewrite H. auto. }
        destruct (found_gopro_indicator l) as [[|]|e].
        -- destruct IH as (before & s' & after & -> & Hm & Hf).
           exists (s :: before), s', after. repeat split; auto.
        -- constructor; assumption.
        -- destruct IH as (-> & before & s' & after & -> & Hn & Hf).
           split; [reflexivity|]. exists (s :: before), s', after. repeat split; auto.
    + split; [reflexivity|]. exists [], s, l. repeat split; auto.
Qed.

(** ** What a search returns *)

Module SearchFacts.
Import Re.

(** A match is the beginning of the text, and matches the pattern by
    itself. *)
Lemma match_here_prefix (pat : list charclass) (s m : string) :
  match_here pat s = Some m ->
  match_here pat m = Some m /\ exists post, s = m +:+ post.
Proof.
  revert s m. induction pat as [|cl pat IH]; intros s m; simpl.
  - intros [= <-]. split; [reflexivity|]. exists s. reflexivity.
  - destruct s as [|c s]; [discriminate|].
    destruct (cl c) eqn:C; [|discriminate].
    destruct (match_here pat s) as [m'|] eqn:E; [|discriminate].
    intros [= <-]. destruct (IH _ _ E) as [Hm [post ->]].
    split; [simpl; rewrite C, Hm; reflexivity|]. exists post. reflexivity.
Qed.

(** What [search] returns stands in the text and matches the pattern. *)
Lemma search_sound (pat : list charclass) (s m : string) :
  search pat s = Some m ->
  match_here pat m = Some m
  /\ exists pre post, s = pre +:+ m +:+ post
       /\ forall pre1 rest, pre = pre1 +:+ rest -> rest <> "" ->
            match_here pat (rest +:+ m +:+ post) = None.
Proof.
  induction s as [|c s IH]; cbn [search].
  - destruct (match_here pat "") as [m0|] eqn:E; [|discriminate].
    intros [= <-]. destruct (match_here_prefix _ _ _ E) as [Hm [post Hp]].
    split; [exact Hm|]. exists "", post. split; [exact Hp|].
    intros pre1 rest Hr Hn. destruct pre1; simpl in Hr; [congruence|discriminate].
  - destruct (match_here pat (String c s)) as [m0|] eqn:E.
    + intros [= <-]. destruct (match_here_prefix _ _ _ E) as [Hm [post Hp]].
      split; [exact Hm|]. exists "", post. split; [exact Hp|].
      intros pre1 rest Hr Hn. destruct pre1; simpl in Hr; [congruence|discriminate].
    + intros H. destruct (IH H) as (Hm & pre & post & -> & Hleft).
      split; [exact Hm|]. exists (String c pre), post. split; [reflexivity|].
      intros pre1 rest Hr Hn. destruct pre1 as [|a pre1]; simpl in Hr.
      * subst rest. simpl. exact E.
      * injection Hr as _ Hr. apply (Hleft pre1 rest Hr Hn).
Qed.

(** [search] fails only when the pattern fits at no position. *)
Lemma search_none (pat : list charclass) (s : string) :
  search pat s = None ->
  forall pre rest, s = pre +:+ rest -> match_here pat rest = None.
Proof.
  induction s as [|c s IH]; cbn [search].
  - destruct (match_here pat "") eqn:E; [discriminate|]. intros _ pre rest Hs.
    destruct pre; simpl in Hs; [subst; exact E | discriminate].
  - destruct (match_here pat (String c s)) eqn:E; [discriminate|].
    intros H pre rest Hs. destruct pre as [|a pre]; simpl in Hs.
    + subst. exact E.
    + injection Hs as _ Hs. apply (IH H pre rest Hs).
Qed.

End SearchFacts.

(** X4. [get_basename] returns the leftmost place of the filename where
    the recording-id pattern fits: eight characters that stand in the
    filename and match the pattern by themselves, with no match starting
    further left; it raises the exception that names the video path exactly
    when the pattern fits nowhere in the filename. *)
Theorem get_basename_result (name path : string) :
  match get_basename name path with
  | Ok b =>
      String.length b = 8
      /\ Re.match_here basename_regex b = Some b
      /\ exists pre post,
           name = pre +:+ b +:+ post
           /\ forall pre1 rest, pre = pre1 +:+ rest -> rest <> "" ->
                Re.match_here basename_regex (rest +:+ b +:+ post) = None
  | Raise e =>
      e = Exception (path +:+ ": Unknown filename format!")
      /\ forall pre rest, name = pre +:+ rest -> Re.match_here basename_regex rest = None
  end.
Proof.
  unfold get_basename. destruct (Re.search basename_regex name) as [m|] eqn:E.
  - split; [apply ReFacts.search_length in E; exact E|].
    destruct (SearchFacts.search_sound _ _ _ E) as (Hm & pre & post & Hs & Hl).
    split; [exact Hm|]. exists pre, post. split; assumption.
  - split; [reflexivity|]. apply SearchFacts.search_none. exact E.
Qed.

(** X5. What [filename_contains_serial] returns stands in the filename,
    matches one of the nine patterns by itself, has 13 to 15 characters
    and so is never taken for "no serial"; it returns [None] exactly when
    none of the nine patterns fits at any position of the filename. *)
Theorem filename_contains_serial_result (o : obj) :
  match filename_contains_serial o with
  | Some s =>
      PyStr.contains s (filename o) = true
      /\ 13 <= String.length s <= 15
      /\ py_not (Some s) = false
      /\ exists pat, In pat serial_regex /\ Re.match_here pat s = Some s
  | None =>
      forall pat, In pat serial_regex ->
      forall pre rest, filename o = pre +:+ rest -> Re.match_here pat rest = None
  end.
Proof.
  unfold filename_contains_serial.
  assert (G : forall pats,
             (forall pat, In pat pats -> 13 <= length pat <= 15) ->
             match first_search pats (filename o) with
             | Some s =>
                 PyStr.contains s (filename o) = true
                 /\ 13 <= String.length s <= 15
                 /\ exists pat, In pat pats /\ Re.match_here pat s = Some s
             | None =>
                 forall pat, In pat pats ->
                 forall pre rest, filename o = pre +:+ rest -> Re.match_here pat rest = None
             end).
  { induction pats as [|pat pats IH]; intros Hlen; simpl.
    - intros pat [].
    - destruct (Re.search pat (filename o)) as [m|] eqn:E.
      + destruct (SearchFacts.search_sound _ _ _ E) as (Hm & pre & post & Hs & _).
        split; [rewrite Hs; apply PyStrFacts.contains_self_append|].
        split; [rewrite (ReFacts.search_length _ _ _ E); apply Hlen; left; reflexivity|].
        exists pat. split; [left; reflexivity | exact Hm].
      + assert (IH' := IH (fun p Hp => Hlen p (or_intror Hp))).
        destruct (first_search pats (filename o)) as [s|].
        * destruct IH' as (Hc & Hl & p & Hp & Hm).
          split; [exact Hc|]. split; [exact Hl|]. exists p. split; [right; exact Hp | exact Hm].
        * intros p [<- | Hp]; [apply SearchFacts.search_none; exact E | apply IH'; exact Hp]. }
  specialize (G serial_regex).
  assert (L : forall pat, In pat serial_regex -> 13 <= length pat <= 15).
  { intros pat Hp. unfold serial_regex in Hp. simpl in Hp.
    repeat (destruct Hp as [<- | Hp]; [simpl; lia|]). destruct Hp. }
  specialize (G L).
  destruct (first_search serial_regex (filename o)) as [s|] eqn:E; [|exact G].
  destruct G as (Hc & Hl & Hp). split; [exact Hc|]. split; [exact Hl|].
  split; [eapply serial_found_nonempty; exact E | exact Hp].
Qed.

(** ** The constructor *)

(** [os.path.basename] holds no separator. *)
Lemma basename_go_no_sep (cur p : string) :
  PyStr.contains "/" cur = false ->
  PyStr.contains "/" (OsPath.basename_go cur p) = false.
Proof.
  revert cur. induction p as [|c p IH]; intros cur H; simpl; [exact H|].
  destruct (Ascii.eqb c OsPath.sep) eqn:E.
  - apply IH. reflexivity.
  - apply IH. clear IH. induction cur as [|a cur IHc].
    + cbn [String.append PyStr.contains PyStr.startswith].
      unfold OsPath.sep in E. rewrite Ascii.eqb_sym, E. reflexivity.
    + cbn [String.append PyStr.contains PyStr.startswith] in H |- *.
      apply orb_false_iff in H as [Ha Hc].
      rewrite Ha. cbn [orb]. apply IHc. exact Hc.
Qed.

Lemma found_marker_exists (l : list stream) :
  found_gopro_indicator l = Ok true -> Exists (fun s => has_marker s = true) l.
Proof.
  induction l as [|s l IH]; simpl; [discriminate|].
  destruct (handler_name s) as [h|] eqn:H; [|discriminate].
  destruct (PyStr.contains "GoPro" h) eqn:C.
  - intros _. left. unfold has_marker. rewrite H. exact C.
  - intros E. right. apply IH. exact E.
Qed.

Lemma new_object_reprocess (env : environment) (f : filesystem) (p cfg : string)
    (force : bool) (o : obj) :
  new_object env f p force cfg = Ok o -> reprocess o = force.
Proof.
  unfold new_object.
  destruct (negb (isfile f p)); [discriminate|].
  destruct (run_ffprobe env _ f); [|discriminate].
  destruct (found_gopro_indicator _) as [[|]|]; try discriminate.
  destruct (load_config env cfg f); [|discriminate].
  destruct (get_basename _ _); [|discriminate].
  intros [= <-]. reflexivity.
Qed.

(** X3. Every object the constructor builds was given a path that is a
    file and whose metadata holds the camera-brand marker; its filename is
    the last component of that path, holds no path separator, has at least
    eight characters and holds the recording id stored as [basename]; its
    telemetry path is the path as given plus [.bin], its video path the
    absolute form of the given path; and no serial or creation time is
    recorded yet. *)
Theorem constructor_guarantees (env : environment) (f : filesystem) (p cfg : string)
    (force : bool) (o : obj) :
  new_object env f p force cfg = Ok o ->
  isfile f p = true
  /\ run_ffprobe env (ffprobe_command p) f = Some (ffprobe_streams o)
  /\ Exists (fun s => has_marker s = true) (streams (ffprobe_streams o))
  /\ filename o = OsPath.basename p
  /\ PyStr.contains "/" (filename o) = false
  /\ 8 <= String.length (filename o)
  /\ String.length (basename o) = 8
  /\ PyStr.contains (basename o) (filename o) = true
  /\ telemetry_path o = p +:+ ".bin"
  /\ video_path o = OsPath.abspath (cwd f) p
  /\ reprocess o = force
  /\ camera_serial o = None /\ creation_time o = None.
Proof.
  unfold new_object.
  destruct (isfile f p) eqn:F; [|discriminate]. cbn [negb].
  destruct (run_ffprobe env _ f) as [d|] eqn:P; [|discriminate].
  destruct (found_gopro_indicator (streams d)) as [[|]|] eqn:G; try discriminate.
  destruct (load_config env cfg f); [|discriminate].
  unfold get_basename.
  destruct (Re.search basename_regex (OsPath.basename p)) as [b|] eqn:B; [|discriminate].
  intros [= <-].
  cbn [filename telemetry_path video_path basename ffprobe_streams reprocess
       camera_serial creation_time].
  destruct (SearchFacts.search_sound _ _ _ B) as (_ & pre & post & Hname & _).
  split; [reflexivity|]. split; [reflexivity|].
  split; [apply found_marker_exists; exact G|].
  split; [reflexivity|].
  split; [apply basename_go_no_sep; reflexivity|].
  split; [apply ReFacts.search_fits in B; exact B|].
  split; [apply ReFacts.search_length in B; exact B|].
  split; [rewrite Hname; apply PyStrFacts.contains_self_append|].
  repeat split; reflexivity.
Qed.

Lemma constructor_guarantees_witness :
  let d := Stub.doc Stub.gopro_streams "2021-06-01T14:05:30Z" in
  let o := Stub.recording d "GH010042.MP4" true in
  PyStr.contains "/" (filename o) = false
  /\ PyStr.contains (basename o) (filename o) = true
  /\ telemetry_path o = "/videos/GH010042.MP4.bin".
Proof.
  intros d o.
  destruct (constructor_guarantees (Stub.env "" [] d)
              (Stub.disk "/videos" ["/videos"] ["/videos/GH010042.MP4"])
              "/videos/GH010042.MP4" "config.yml" true o)
    as (_ & _ & _ & _ & Hs & _ & _ & Hb & Ht & _).
  - vm_compute. reflexivity.
  - split; [exact Hs|]. split; [exact Hb | exact Ht].
Defined.

(** ** Failures of the normalizer *)

Section NormalizerFailures.

Variable env : environment.

(** X6. A normalizer step that raises has renamed nothing and has left
    the video directory, the video path and the telemetry path as they
    were.  The filename is as it was too, unless the exception is the one
    of [os.rename] itself: then the filename already holds the new name,
    for a rename of the old video path that could not be done. *)
Theorem failing_normalizer_keeps_paths (n : normalizer_step) (w w' : world) (e : exn) :
  run_normalizer env n w = (Raise e, w') ->
  renames w' = renames w
  /\ video_dir (self w') = video_dir (self w)
  /\ video_path (self w') = video_path (self w)
  /\ telemetry_path (self w') = telemetry_path (self w)
  /\ (filename (self w') = filename (self w)
      \/ rename_error (fs w') (video_path (self w))
           (PyStr.replace (video_path (self w)) (filename (self w)) (filename (self w')))
         = Some e).
Proof.
  destruct n; simpl; intros Hrun.
  - destruct (filename_contains_serial (self w)) as [s|] eqn:Hf.
    + rewrite (prepend_found env w s Hf) in Hrun. discriminate.
    + pose proof (retrieve_camera_serial_frame env w) as [Hs Hren].
      destruct (retrieve_camera_serial env w) as [[serial|e0] w0] eqn:Hr.
      * rewrite (prepend_retrieved env w w0 serial Hf Hr), rename_video_eq in Hrun.
        cbn [self fs calls renames with_self video_path filename set_camera_serial snd] in *.
        destruct (rename_error _ _ _) eqn:E; [|discriminate]. injection Hrun as <- <-.
        cbn [self fs renames with_self video_dir video_path filename telemetry_path
             set_filename set_camera_serial].
        repeat split; try reflexivity; try exact Hren.
        right. exact E.
      * rewrite process_prepend_eq in Hrun. cbn zeta in Hrun. rewrite Hf in Hrun.
        simpl py_not in Hrun. cbn iota in Hrun.
        rewrite retrieve_camera_serial_indep, Hr in Hrun.
        cbn [fst snd] in Hrun. injection Hrun as <- <-.
        cbn [self fs renames with_self video_dir video_path filename telemetry_path
             set_camera_serial].
        simpl in Hren. repeat split; try reflexivity; try exact Hren.
        left. reflexivity.
  - rewrite append_eq in Hrun.
    destruct (creation_time_tag (ffprobe_streams (self w))) as [ts|].
    2:{ injection Hrun as <- <-. repeat split; try reflexivity. left; reflexivity. }
    destruct (DateTime.parse ts) as [dt|].
    2:{ injection Hrun as <- <-. repeat split; try reflexivity. left; reflexivity. }
    cbn zeta in Hrun.
    destruct (PyStr.contains (DateTime.strftime dt) (filename (self w))); [discriminate|].
    rewrite rename_video_eq in Hrun.
    cbn [self fs calls renames with_self video_path filename set_creation_time] in Hrun.
    destruct (rename_error _ _ _) eqn:E; [|discriminate]. injection Hrun as <- <-.
    cbn [self fs renames with_self video_dir video_path filename telemetry_path
         set_filename set_creation_time].
    repeat split; try reflexivity. right. exact E.
Qed.

End NormalizerFailures.

Lemma failing_normalizer_keeps_paths_witness :
  let d := {| streams := Stub.gopro_streams; creation_time_tag := None;
              firmware_tag := None |} in
  let w := Stub.start (Stub.recording d "GH010042.MP4" false)
             (Stub.disk "/videos" ["/videos"] ["/videos/GH010042.MP4"]) in
  let w' := snd (run_normalizer (Stub.env "" [] d) AppendTimestamp w) in
  renames w' = [] /\ video_path (self w') = "/videos/GH010042.MP4".
Proof.
  intros d w w'.
  destruct (failing_normalizer_keeps_paths (Stub.env "" [] d) AppendTimestamp w w'
              (KeyError "creation_time")) as (Hr & _ & Hv & _).
  - vm_compute. reflexivity.
  - split; [exact Hr | exact Hv].
Defined.

(** ** Reading the serial *)

(** Decoding never yields more characters than there are bytes. *)
Lemma decode_utf8_length (bs : list Byte.byte) (s : string) :
  decode_utf8 bs = Some s -> String.length s <= length bs.
Proof.
  remember (length bs) as n eqn:Hn.
  assert (Hle : length bs <= n) by lia. clear Hn.
  revert bs s Hle. induction n as [|n IH]; intros bs s Hle.
  - destruct bs; [|simpl in Hle; lia]. simpl. intros [= <-]. simpl. lia.
  - destruct bs as [|b rest]; [simpl; intros [= <-]; simpl; lia|].
    cbn [decode_utf8]. simpl in Hle.
    destruct (Byte.to_nat b <? 128)%nat.
    + destruct (decode_utf8 rest) as [s'|] eqn:E; [|discriminate].
      intros [= <-]. apply IH in E; [|lia]. simpl. lia.
    + destruct ((Byte.to_nat b =? 194) || (Byte.to_nat b =? 195))%nat; [|discriminate].
      destruct rest as [|b2 rest']; [discriminate|].
      destruct ((128 <=? Byte.to_nat b2) && (Byte.to_nat b2 <? 192))%nat; [|discriminate].
      destruct (decode_utf8 rest') as [s'|] eqn:E; [|discriminate].
      intros [= <-]. simpl in Hle. apply IH in E; [|lia]. simpl. lia.
Qed.

Section SerialRetrieval.

Variable env : environment.

(** X7. [retrieve_camera_serial] hands exactly one command to
    [subprocess.run], the demuxer on the [fdsc] stream writing to
    [<video_path>_fdsc.bin], and touches neither the object nor the rename
    log.  When it returns, the serial has at most 14 characters, the
    demuxer exited with 0 and the temporary file is gone.  When it raises,
    whatever the exception, nothing was removed: the filesystem is the one
    the demuxer left, temporary file included. *)
Theorem retrieve_camera_serial_outcome (w : world) :
  let o := self w in
  let temp := video_path o +:+ "_fdsc.bin" in
  let cmd := ffmpeg_command (video_path o) (get_stream_index o "fdsc") temp in
  let out := retrieve_camera_serial env w in
  self (snd out) = o
  /\ renames (snd out) = renames w
  /\ calls (snd out) = calls w ++ [(cmd, fst (run_tool env cmd (fs w)))]
  /\ match fst out with
     | Ok serial =>
         String.length serial <= 14
         /\ fst (run_tool env cmd (fs w)) = Exited 0
         /\ isfile (fs (snd out)) temp = false
     | Raise _ => fs (snd out) = snd (run_tool env cmd (fs w))
     end.
Proof.
  intros o temp cmd out. subst out.
  unfold retrieve_camera_serial, bind, this. cbn beta iota zeta.
  fold o. fold temp. fold cmd.
  rewrite call_subprocess_eq.
  destruct (fst (run_tool env cmd (fs w))) as [rc|] eqn:T;
    [|cbn [succeeded fst snd self renames calls fs]; repeat split; reflexivity].
  cbn [succeeded].
  destruct (Z.eqb_spec rc 0) as [->|Hrc];
    [|cbn [fst snd self renames calls fs]; repeat split; reflexivity].
  unfold read_after. cbn [fst snd self renames calls fs].
  destruct (files (snd (run_tool env cmd (fs w))) !! _) as [data|] eqn:D;
    [|cbn [fst snd self renames calls fs]; repeat split; reflexivity].
  destruct (decode_utf8 (take 14 (drop 87 data))) as [serial|] eqn:U;
    [|cbn [fst snd self renames calls fs]; repeat split; reflexivity].
  unfold os_remove. cbn [fst snd self renames calls fs]. rewrite D.
  destruct (negb (writable _ _));
    cbn [fst snd self renames calls fs ret]; repeat split; try reflexivity.
  - apply decode_utf8_length in U. rewrite length_take in U. lia.
  - apply isfile_deleted.
Qed.

(** The serial read when the demuxer succeeds and the file can be decoded
    and removed. *)
Lemma retrieve_camera_serial_ok (w : world) (f1 : filesystem)
    (data : list Byte.byte) (serial : string) :
  let temp := video_path (self w) +:+ "_fdsc.bin" in
  let cmd := ffmpeg_command (video_path (self w)) (get_stream_index (self w) "fdsc") temp in
  run_tool env cmd (fs w) = (Exited 0, f1) ->
  files f1 !! resolve f1 temp = Some data ->
  decode_utf8 (take 14 (drop 87 data)) = Some serial ->
  writable f1 (OsPath.dirname (resolve f1 temp)) = true ->
  retrieve_camera_serial env w =
    (Ok serial,
     {| self := self w; fs := set_files (delete (resolve f1 temp) (files f1)) f1;
        calls := calls w ++ [(cmd, Exited 0)]; renames := renames w |}).
Proof.
  intros temp cmd Hrun Hdata Hdec Hwr.
  unfold retrieve_camera_serial, bind, this. cbn beta iota zeta.
  fold temp. fold cmd.
  rewrite call_subprocess_eq, Hrun. simpl.
  unfold read_after; simpl. rewrite Hdata, Hdec.
  unfold os_remove; simpl. rewrite Hdata, Hwr. reflexivity.
Qed.

(** X8. A device-info file of at most 87 bytes holds nothing after the
    header: the serial read is the empty text, it is not checked, and the
    video is renamed to [_<filename>]. *)
Theorem short_device_info_gives_empty_serial (w : world) (f1 : filesystem)
    (data : list Byte.byte) :
  let o := self w in
  let temp := video_path o +:+ "_fdsc.bin" in
  let cmd := ffmpeg_command (video_path o) (get_stream_index o "fdsc") temp in
  let f2 := set_files (delete (resolve f1 temp) (files f1)) f1 in
  let new_video_path := PyStr.replace (video_path o) (filename o) ("_" +:+ filename o) in
  filename_contains_serial o = None ->
  run_tool env cmd (fs w) = (Exited 0, f1) ->
  files f1 !! resolve f1 temp = Some data ->
  length data <= 87 ->
  writable f1 (OsPath.dirname (resolve f1 temp)) = true ->
  rename_error f2 (video_path o) new_video_path = None ->
  fst (retrieve_camera_serial env w) = Ok ""
  /\ exists w',
       process_prepend_filename_with_serial env w = (Ok tt, w')
       /\ camera_serial (self w') = Some ""
       /\ filename (self w') = "_" +:+ filename o
       /\ renames w' = renames w ++ [(video_path o, new_video_path)]
       /\ isfile (fs w') new_video_path = true.
Proof.
  intros o temp cmd f2 new_video_path Hn Hrun Hdata Hlen Hwr Hren.
  assert (Hdec : decode_utf8 (take 14 (drop 87 data)) = Some "").
  { rewrite drop_ge by exact Hlen. reflexivity. }
  pose proof (retrieve_camera_serial_ok w f1 data "" Hrun Hdata Hdec Hwr) as R.
  split; [rewrite R; reflexivity|].
  rewrite (prepend_retrieved env w _ "" Hn R), rename_video_eq.
  cbn [self fs calls renames with_self video_path filename set_camera_serial].
  fold o. fold temp. fold f2.
  change ("" +:+ "_" +:+ filename o) with ("_" +:+ filename o).
  fold new_video_path. rewrite Hren.
  eexists. split; [reflexivity|].
  cbn [self fs renames renamed camera_serial filename
       set_telemetry_path set_video_path set_filename set_camera_serial].
  repeat split; try reflexivity.
  apply moved_isfile. exact Hren.
Qed.

End SerialRetrieval.

Lemma short_device_info_gives_empty_serial_witness :
  let d := Stub.doc Stub.gopro_streams "2021-06-01T14:05:30Z" in
  let env := Stub.env "" [] d in
  let w := Stub.start (Stub.recording d "GH010042.MP4" false)
             (Stub.disk "/videos" ["/videos"] ["/videos/GH010042.MP4"]) in
  exists w',
    process_prepend_filename_with_serial env w = (Ok tt, w')
    /\ filename (self w') = "_GH010042.MP4"
    /\ isfile (fs w') "/videos/_GH010042.MP4" = true.
Proof.
  intros d env w.
  destruct (short_device_info_gives_empty_serial env w
              (snd (run_tool env
                      (ffmpeg_command "/videos/GH010042.MP4" (Some 4%Z)
                         "/videos/GH010042.MP4_fdsc.bin") (fs w)))
              Stub.header)
    as (_ & w' & Hrun & _ & Hname & _ & Hfile);
    try (vm_compute; reflexivity).
  exists w'. split; [exact Hrun|]. split; [exact Hname | exact Hfile].
Defined.

(** ** A whole run *)

Lemma same_settings_refl (o : obj) : same_settings o o.
Proof. repeat split. Qed.

Lemma same_settings_trans (a b c : obj) :
  same_settings a b -> same_settings b c -> same_settings a c.
Proof.
  unfold same_settings. intros H1 H2.
  destruct H1 as (?&?&?&?&?&?&?&?&?), H2 as (?&?&?&?&?&?&?&?&?).
  repeat split; congruence.
Qed.

Section WholeRun.

Variable env : environment.

(** A normalizer step, whatever its outcome, leaves the settings alone. *)
Lemma normalizer_keeps_settings (n : normalizer_step) (w : world) :
  same_settings (self (snd (run_normalizer env n w))) (self w).
Proof.
  destruct n; simpl.
  - rewrite process_prepend_eq. cbn zeta.
    destruct (py_not (filename_contains_serial (self w))); [|repeat split].
    rewrite retrieve_camera_serial_indep.
    pose proof (retrieve_camera_serial_frame env w) as [Hs _].
    destruct (retrieve_camera_serial env w) as [[serial|e] w0]; cbn [fst snd] in *.
    + rewrite rename_video_eq.
      cbn [self fs calls renames with_self video_path filename set_camera_serial].
      destruct (rename_error _ _ _); repeat split.
    + repeat split.
  - rewrite append_eq.
    destruct (creation_time_tag (ffprobe_streams (self w))) as [ts|]; [|repeat split].
    destruct (DateTime.parse ts) as [dt|]; [|repeat split]. cbn zeta.
    destruct (PyStr.contains _ _); [repeat split|].
    rewrite rename_video_eq.
    cbn [self fs calls renames with_self video_path filename set_creation_time].
    destruct (rename_error _ _ _); repeat split.
Qed.

(** The five steps leave the object and the rename log alone. *)
Lemma run_steps_frame (l : list step) (w : world) :
  self (snd (run_steps env l w)) = self w
  /\ renames (snd (run_steps env l w)) = renames w.
Proof.
  revert w. induction l as [|s l IH]; intros w; [split; reflexivity|].
  assert (U : run_steps env (s :: l) w =
              match run_step env s w with
              | (Ok _, w') => run_steps env l w'
              | (Raise e, w') => (Raise e, w')
              end) by reflexivity.
  rewrite U.
  destruct (run_step_cases env s w) as [[E _]|(out & f' & _ & E)]; rewrite E.
  - apply IH.
  - destruct (succeeded out); [|split; reflexivity].
    destruct (IH {| self := self w; fs := f';
                    calls := calls w ++ [(command s (self w), out)];
                    renames := renames w |}) as [Hs Hr].
    split; [rewrite Hs | rewrite Hr]; reflexivity.
Qed.

(** The extraction and the conversions, as a list of steps. *)
Lemma extraction_run_steps (w : world) :
  bind (extract_telemetry env) (fun _ => extract_all env) w = run_steps env all_steps w.
Proof.
  assert (U : run_steps env all_steps w =
              match extract_telemetry env w with
              | (Ok _, w') => run_steps env converters w'
              | (Raise e, w') => (Raise e, w')
              end) by reflexivity.
  rewrite U. unfold bind at 1.
  destruct (extract_telemetry env w) as [[[]|e] w1]; [|reflexivity].
  apply extract_all_run_steps.
Qed.

Lemma process_eq (prepend_serial append_timestamp : bool) (w : world) :
  process env prepend_serial append_timestamp w =
  match (if prepend_serial then run_normalizer env PrependSerial w else (Ok tt, w)) with
  | (Raise e, w1) => (Raise e, w1)
  | (Ok _, w1) =>
      match (if append_timestamp then run_normalizer env AppendTimestamp w1 else (Ok tt, w1)) with
      | (Raise e, w2) => (Raise e, w2)
      | (Ok _, w2) => run_steps env all_steps w2
      end
  end.
Proof.
  unfold process. unfold bind at 1.
  destruct prepend_serial; cbn [run_normalizer ret].
  - destruct (process_prepend_filename_with_serial env w) as [[[]|e] w1]; [|reflexivity].
    unfold bind at 1. destruct append_timestamp; cbn [ret].
    + destruct (append_filename_with_timestamp w1) as [[[]|e] w2]; [|reflexivity].
      apply extraction_run_steps.
    + apply extraction_run_steps.
  - unfold bind at 1. destruct append_timestamp; cbn [ret].
    + destruct (append_filename_with_timestamp w) as [[[]|e] w2]; [|reflexivity].
      apply extraction_run_steps.
    + apply extraction_run_steps.
Qed.

(** X9. Whatever the options and however the run ends, the steps after
    construction never change the probed metadata, the reprocess flag, the
    five tool paths, the recording id, or [video_dir]: only the filename,
    the two stored paths, and the recorded serial and creation time can
    differ at the end. *)
Theorem process_keeps_settings (prepend_serial append_timestamp : bool) (w : world) :
  same_settings (self (snd (process env prepend_serial append_timestamp w))) (self w).
Proof.
  rewrite process_eq.
  assert (A : forall (b : bool) n w0,
             same_settings
               (self (snd (if b then run_normalizer env n w0 else (Ok tt, w0)))) (self w0)).
  { intros b n w0. destruct b; [apply normalizer_keeps_settings | apply same_settings_refl]. }
  pose proof (A prepend_serial PrependSerial w) as H1.
  destruct (if prepend_serial then run_normalizer env PrependSerial w else (Ok tt, w))
    as [[[]|e] w1]; cbn [snd] in H1; [|exact H1].
  pose proof (A append_timestamp AppendTimestamp w1) as H2.
  destruct (if append_timestamp then run_normalizer env AppendTimestamp w1 else (Ok tt, w1))
    as [[[]|e] w2]; cbn [snd] in H2.
  - destruct (run_steps_frame all_steps w2) as [Hs _]. rewrite Hs.
    eapply same_settings_trans; eassumption.
  - cbn [snd]. eapply same_settings_trans; eassumption.
Qed.

(** X11. No rollback: when serial prefixing has gone through and timestamp
    suffixing then raises, the run ends with that exception, no extraction
    tool is invoked, and the disk and the rename log stay as serial
    prefixing left them, so a video it renamed keeps its new name. *)
Theorem timestamp_failure_keeps_serial_rename (w w1 w2 : world) (e : exn) :
  process_prepend_filename_with_serial env w = (Ok tt, w1) ->
  append_filename_with_timestamp w1 = (Raise e, w2) ->
  process env true true w = (Raise e, w2)
  /\ calls w2 = calls w1
  /\ renames w2 = renames w1
  /\ fs w2 = fs w1
  /\ video_path (self w2) = video_path (self w1).
Proof.
  intros H1 H2. rewrite process_eq. cbn [run_normalizer]. rewrite H1, H2.
  split; [reflexivity|].
  rewrite append_eq in H2.
  destruct (creation_time_tag (ffprobe_streams (self w1))) as [ts|].
  2:{ injection H2 as _ <-. repeat split. }
  destruct (DateTime.parse ts) as [dt|].
  2:{ injection H2 as _ <-. repeat split. }
  cbn zeta in H2.
  destruct (PyStr.contains _ _); [discriminate|].
  rewrite rename_video_eq in H2.
  cbn [self fs calls renames with_self video_path filename set_creation_time] in H2.
  destruct (rename_error _ _ _); [|discriminate].
  injection H2 as _ <-. repeat split.
Qed.

(** X13. With [reprocess] unset and all five artifacts already on disk,
    the extraction and the four conversions invoke nothing and change
    nothing. *)
Theorem complete_outputs_nothing_to_do (w : world) :
  reprocess (self w) = false ->
  (forall s, isfile (fs w) (target s (self w)) = true) ->
  run_steps env all_steps w = (Ok tt, w)
  /\ process env false false w = (Ok tt, w).
Proof.
  intros Hr Hf.
  assert (S : forall l, run_steps env l w = (Ok tt, w)).
  { induction l as [|s l IH]; [reflexivity|].
    cbn [run_steps]. unfold bind. rewrite run_step_eq.
    unfold must_run. rewrite Hr, Hf. cbn [orb negb]. exact IH. }
  split; [apply S|]. rewrite process_eq. apply S.
Qed.

End WholeRun.

Lemma timestamp_failure_keeps_serial_rename_witness :
  let d := {| streams := Stub.gopro_streams; creation_time_tag := None;
              firmware_tag := None |} in
  let env := Stub.env "C3221234567890" [] d in
  let w := Stub.start (Stub.recording d "GH010042.MP4" false)
             (Stub.disk "/videos" ["/videos"] ["/videos/GH010042.MP4"]) in
  let out := process env true true w in
  fst out = Raise (KeyError "creation_time")
  /\ renames (snd out) = [("/videos/GH010042.MP4", "/videos/C3221234567890_GH010042.MP4")]
  /\ length (calls (snd out)) = 1.
Proof.
  intros d env w out.
  destruct (timestamp_failure_keeps_serial_rename env w
              (snd (process_prepend_filename_with_serial env w))
              (snd (append_filename_with_timestamp
                      (snd (process_prepend_filename_with_serial env w))))
              (KeyError "creation_time"))
    as (Hp & Hc & Hr & _); try (vm_compute; reflexivity).
  subst out. rewrite Hp. cbn [fst snd]. rewrite Hc, Hr.
  split; [reflexivity|]. split; vm_compute; reflexivity.
Defined.

Lemma complete_outputs_nothing_to_do_witness :
  let d := Stub.doc Stub.gopro_streams "2021-06-01T14:05:30Z" in
  let env := Stub.env "" [] d in
  let w := Stub.start (Stub.recording d "GH010042.MP4" false)
             (Stub.disk "/videos" ["/videos"]
                ["/videos/GH010042.MP4"; "/videos/GH010042.MP4.bin";
                 "/videos/GH010042.MP4.gpx"; "/videos/GH010042.MP4.json";
                 "/videos/GH010042.MP4.csv"; "/videos/GH010042.MP4.kml"]) in
  process env false false w = (Ok tt, w).
Proof.
  intros d env w.
  destruct (complete_outputs_nothing_to_do env w) as [_ H].
  - reflexivity.
  - intros s. destruct s; vm_compute; reflexivity.
  - exact H.
Defined.

(** ** The command-line entry point *)

(** X10. A run started from the command line never renames the video:
    the object is the one the constructor built, unchanged.  It always
    reprocesses: the commands handed to [subprocess.run] are the demuxer
    and then GPX, JSON, CSV, KML, in that order, whatever is on disk
    already, up to the first one that fails; when the run returns all five
    were invoked and exited with 0, and when it raises the exception is
    the one of the last command invoked.  Without a path argument no
    object is built at all. *)
Theorem command_line_run (env : environment) (f : filesystem) (arg : option string) :
  match main env f arg with
  | NotConstructed e =>
      arg = None /\ e = TypeError
      \/ exists p, arg = Some p /\ new_object env f p true "config.yml" = Raise e
  | Ran r w =>
      exists p o,
        arg = Some p
        /\ new_object env f p true "config.yml" = Ok o
        /\ self w = o
        /\ renames w = []
        /\ map fst (calls w) `prefix_of` map (fun s => command s o) all_steps
        /\ match r with
           | Ok _ =>
               map fst (calls w) = map (fun s => command s o) all_steps
               /\ forallb (fun x => succeeded (snd x)) (calls w) = true
           | Raise e =>
               exists before c out,
                 calls w = before ++ [(c, out)]
                 /\ forallb (fun x => succeeded (snd x)) before = true
                 /\ succeeded out = false
                 /\ e = raised_for c out
           end
  end.
Proof.
  unfold main. destruct arg as [p|]; [|left; split; reflexivity].
  unfold GoProTelemetry.
  destruct (new_object env f p true "config.yml") as [o|e] eqn:N;
    [|right; exists p; split; [reflexivity | exact N]].
  pose proof (new_object_reprocess env f p "config.yml" true o N) as Hr.
  set (w0 := {| self := o; fs := f; calls := []; renames := [] |}).
  rewrite process_eq. cbn iota.
  destruct (run_steps_log env all_steps w0) as (inv & Hc & Hs & _ & Hpre & Hres).
  destruct (run_steps_frame env all_steps w0) as [_ Hren].
  exists p, o. split; [reflexivity|]. split; [exact N|].
  cbn [self calls renames w0 app] in *.
  split; [exact Hs|]. split; [exact Hren|].
  rewrite Hc. split; [apply Hpre; exact Hr|].
  destruct (fst (run_steps env all_steps w0)) as [[]|e].
  - destruct Hres as [Ha Hb]. split; [apply Hb; exact Hr | exact Ha].
  - exact Hres.
Qed.

(** ** The paths of the artifacts *)

Lemma append_inj_l (a x y : string) : a +:+ x = a +:+ y -> x = y.
Proof. induction a as [|c a IH]; simpl; [auto|]. intros [= H]. apply IH. exact H. Qed.

(** X12. For a video that sits in [video_dir] under [filename] with its
    telemetry path next to it, the video path and the paths of the five
    artifacts are six different paths: no step writes over the video or
    over the output of another step. *)
Theorem artifact_paths_distinct (o : obj) :
  placed o ->
  NoDup (video_path o :: map (fun s => target s o) all_steps).
Proof.
  intros [Hv Ht].
  set (J := OsPath.join (video_dir o) (filename o)).
  assert (E : video_path o :: map (fun s => target s o) all_steps
              = map (fun e => J +:+ e) [""; ".bin"; ".gpx"; ".json"; ".csv"; ".kml"]).
  { cbn [map all_steps converters target]. rewrite Hv, Ht.
    unfold gpx_path, json_path, csv_path, kml_path.
    rewrite !OsPathFacts.join_append by reflexivity.
    fold J. rewrite PyStrFacts.append_nil_r. reflexivity. }
  rewrite E. apply NoDup_fmap_2.
  - intros x y H. apply append_inj_l in H. exact H.
  - repeat (apply NoDup_cons; split; [set_solver|]). apply NoDup_nil_2.
Qed.

Lemma artifact_paths_distinct_witness :
  NoDup ["/videos/GH010042.MP4"; "/videos/GH010042.MP4.bin"; "/videos/GH010042.MP4.gpx";
         "/videos/GH010042.MP4.json"; "/videos/GH010042.MP4.csv"; "/videos/GH010042.MP4.kml"].
Proof.
  apply (artifact_paths_distinct
           (Stub.recording (Stub.doc Stub.gopro_streams "2021-06-01T14:05:30Z")
              "GH010042.MP4" false)).
  split; reflexivity.
Defined.

(** ** The per-sensor tables *)

Section MetadataFacts.

Variable env : environment.
Variable shutil_move : string -> string -> filesystem -> result unit * filesystem.

(** X14. [extract_metadata] does nothing at all when [reprocess] is unset
    and all four tables are on disk; as soon as one of the four is missing
    (or [reprocess] is set) it hands [gpmdinfo -i <telemetry_path>] to
    [subprocess.run], exactly once.  When that command fails nothing is
    moved; when it succeeds the first move takes [./gps.csv] from the
    working directory to [<video_dir>/<filename>_gps.csv], and an
    exception of that move ends the step.  The object and the rename log
    are never touched. *)
Theorem extract_metadata_policy (w : world) :
  let o := self w in
  let complete := isfile (fs w) (gps_path o) && isfile (fs w) (gyro_path o)
                  && isfile (fs w) (accl_path o) && isfile (fs w) (temp_path o) in
  let out := extract_metadata env shutil_move w in
  let tool := run_tool env (metadata_command o) (fs w) in
  self (snd out) = o
  /\ renames (snd out) = renames w
  /\ if reprocess o || negb complete then
       calls (snd out) = calls w ++ [(metadata_command o, fst tool)]
       /\ if succeeded (fst tool) then
            match shutil_move "./gps.csv" (gps_path o) (snd tool) with
            | (Raise e, f') => fst out = Raise e /\ fs (snd out) = f'
            | (Ok _, _) => True
            end
          else fst out = Raise (raised_for (metadata_command o) (fst tool))
               /\ fs (snd out) = snd tool
     else out = (Ok tt, w).
Proof.
  intros o complete out tool. subst out.
  unfold extract_metadata, bind, this, os_path_isfile. cbn beta iota zeta.
  fold o. fold complete.
  destruct (reprocess o || negb complete); [|repeat split].
  rewrite call_subprocess_eq. fold (metadata_command o). fold tool.
  destruct (succeeded (fst tool)); [|repeat split].
  unfold move. cbn [fs self calls renames fst snd].
  destruct (shutil_move "./gps.csv" (gps_path o) (snd tool)) as [[[]|e1] f1];
    cbn [fst snd]; [|repeat split].
  destruct (shutil_move "./gyro.csv" (gyro_path o) f1) as [[[]|e2] f2];
    cbn [fst snd]; [|repeat split].
  destruct (shutil_move "./accl.csv" (accl_path o) f2) as [[[]|e3] f3];
    cbn [fst snd]; [|repeat split].
  destruct (shutil_move "./temp.csv" (temp_path o) f3) as [[[]|e4] f4];
    cbn [fst snd]; repeat split.
Qed.

End MetadataFacts.

(** ** What the constructor rejects *)

(** X15. The checks of the constructor, in their order.  A path that is
    not a file is rejected with [OSError] whatever the prober would say; a
    prober that wrote to its error stream gives [TypeError]; then comes
    the scan for the brand marker with its [KeyError] or its "is not a
    GoPro video" exception; the configuration is read only after that; and
    the filename is searched for the recording id last, its exception
    naming the absolute video path where the others name the path as
    given. *)
Theorem constructor_rejections (env : environment) (f : filesystem) (p cfg : string)
    (force : bool) (e : exn) :
  new_object env f p force cfg = Raise e ->
  (isfile f p = false /\ e = OSError (p +:+ " is not a file!"))
  \/ (isfile f p = true /\
      ((run_ffprobe env (ffprobe_command p) f = None /\ e = TypeError)
       \/ exists d,
            run_ffprobe env (ffprobe_command p) f = Some d /\
            ((found_gopro_indicator (streams d) = Raise e /\ e = KeyError "handler_name")
             \/ (found_gopro_indicator (streams d) = Ok false
                 /\ e = Exception (p +:+ " is not a GoPro video!"))
             \/ (found_gopro_indicator (streams d) = Ok true /\
                 (load_config env cfg f = None
                  \/ (load_config env cfg f <> None
                      /\ Re.search basename_regex (OsPath.basename p) = None
                      /\ e = Exception (OsPath.abspath (cwd f) p
                                        +:+ ": Unknown filename format!"))))))).
Proof.
  unfold new_object.
  destruct (isfile f p); cbn [negb]; [|intros [= <-]; left; split; reflexivity].
  intros H. right. split; [reflexivity|].
  destruct (run_ffprobe env _ f) as [d|]; [|injection H as <-; left; split; reflexivity].
  right. exists d. split; [reflexivity|].
  destruct (found_gopro_indicator (streams d)) as [[|]|e0] eqn:G.
  - right. right. split; [reflexivity|].
    destruct (load_config env cfg f) as [c|]; [|left; reflexivity].
    right. split; [discriminate|].
    unfold get_basename in H.
    destruct (Re.search basename_regex (OsPath.basename p)); [discriminate|].
    injection H as <-. split; reflexivity.
  - injection H as <-. right. left. split; reflexivity.
  - injection H as <-. left. split; [reflexivity|].
    clear -G. induction (streams d) as [|s l IH]; simpl in G; [discriminate|].
    destruct (handler_name s) as [h|]; [|injection G as <-; reflexivity].
    destruct (PyStr.contains "GoPro" h); [discriminate | apply IH; exact G].
Qed.

Lemma constructor_rejections_witness :
  new_object (Stub.env "" [] (Stub.doc Stub.gopro_streams "2021-06-01T14:05:30Z"))
    (Stub.disk "/videos" ["/videos"] ["/videos/GH010042.MP4"])
    "/videos/GH010043.MP4" false "config.yml"
  = Raise (OSError "/videos/GH010043.MP4 is not a file!").
Proof.
  destruct (constructor_rejections
              (Stub.env "" [] (Stub.doc Stub.gopro_streams "2021-06-01T14:05:30Z"))
              (Stub.disk "/videos" ["/videos"] ["/videos/GH010042.MP4"])
              "/videos/GH010043.MP4" "config.yml" false
              (OSError "/videos/GH010043.MP4 is not a file!"))
    as [[_ _] | [Hf _]].
  - vm_compute. reflexivity.
  - vm_compute. reflexivity.
  - vm_compute in Hf. discriminate.
Defined.

(** ** Both renames in a row *)

(** X16. Serial prefixing followed by timestamp suffixing, on a filename
    [<stem>.MP4] in which no serial pattern occurs: when the serial could
    be read, the name with the serial holds [.MP4] only as its extension
    and does not hold the timestamp, and both renames can be done, the
    video ends up as [<serial>_<stem>_<timestamp>.MP4] after two renames,
    the second one starting from the path the first one produced. *)
Theorem serial_then_timestamp (env : environment) (w w1 : world)
    (serial ts stem : string) (dt : datetime) :
  let o := self w in
  let name1 := serial +:+ "_" +:+ filename o in
  let path1 := PyStr.replace (video_path o) (filename o) name1 in
  let name2 := serial +:+ "_" +:+ stem +:+ "_" +:+ DateTime.strftime dt +:+ ".MP4" in
  let path2 := PyStr.replace path1 name1 name2 in
  filename_contains_serial o = None ->
  retrieve_camera_serial env w = (Ok serial, w1) ->
  creation_time_tag (ffprobe_streams o) = Some ts ->
  DateTime.parse ts = Some dt ->
  filename o = stem +:+ ".MP4" ->
  PyStr.occurrences ".MP4" name1 = 1 ->
  PyStr.contains (DateTime.strftime dt) name1 = false ->
  rename_error (fs w1) (video_path o) path1 = None ->
  rename_error (moved (fs w1) (video_path o) path1) path1 path2 = None ->
  exists w2,
    (process_prepend_filename_with_serial env;; append_filename_with_timestamp) w = (Ok tt, w2)
    /\ filename (self w2) = name2
    /\ video_path (self w2) = path2
    /\ camera_serial (self w2) = Some serial
    /\ creation_time (self w2) = Some dt
    /\ renames w2 = renames w ++ [(video_path o, path1); (path1, path2)]
    /\ isfile (fs w2) path2 = true.
Proof.
  intros o name1 path1 name2 path2 Hn Hr Ht Hp Hname Hocc Hc Hren1 Hren2.
  pose proof (retrieve_camera_serial_frame env w) as [Hs Hrn]. rewrite Hr in Hs, Hrn.
  cbn [snd] in Hs, Hrn.
  assert (N2 : timestamped name1 dt = name2).
  { unfold timestamped, name2. unfold name1 in Hocc |- *.
    rewrite Hname in Hocc |- *.
    assert (A : serial +:+ "_" +:+ stem +:+ ".MP4" = (serial +:+ "_" +:+ stem) +:+ ".MP4").
    { rewrite !PyStrFacts.append_assoc. reflexivity. }
    rewrite A in Hocc |- *.
    pose proof (PyStrFacts.replace_unique ".MP4"
                  ("_" +:+ DateTime.strftime dt +:+ ".MP4")
                  (serial +:+ "_" +:+ stem) "" Hocc eq_refl) as R.
    rewrite !PyStrFacts.append_nil_r in R. rewrite R.
    rewrite !PyStrFacts.append_assoc. reflexivity. }
  unfold bind.
  rewrite (prepend_retrieved env w w1 serial Hn Hr), rename_video_eq.
  cbn [self fs calls renames with_self video_path filename set_camera_serial].
  fold o. fold name1. fold path1. rewrite Hren1.
  rewrite append_eq.
  cbn [self fs calls renames renamed ffprobe_streams video_path filename
       set_telemetry_path set_video_path set_filename set_camera_serial].
  fold o. rewrite Ht, Hp. cbn zeta.
  cbn [self fs calls renames with_self ffprobe_streams video_path filename
       set_creation_time].
  rewrite Hc. rewrite rename_video_eq.
  cbn [self fs calls renames with_self renamed video_path filename set_creation_time
       set_telemetry_path set_video_path set_filename set_camera_serial].
  rewrite N2. fold path1. fold path2. rewrite Hren2.
  eexists. split; [reflexivity|].
  cbn [self fs calls renames renamed video_path filename camera_serial creation_time
       set_telemetry_path set_video_path set_filename set_creation_time set_camera_serial].
  repeat split; try reflexivity.
  - rewrite Hrn, <- app_assoc. reflexivity.
  - apply moved_isfile. exact Hren2.
Qed.

Lemma serial_then_timestamp_witness :
  let d := Stub.doc Stub.gopro_streams "2021-06-01T14:05:30Z" in
  let env := Stub.env "C3221234567890" [] d in
  let w := Stub.start (Stub.recording d "GH010042.MP4" false)
             (Stub.disk "/videos" ["/videos"] ["/videos/GH010042.MP4"]) in
  exists w2,
    (process_prepend_filename_with_serial env;; append_filename_with_timestamp) w = (Ok tt, w2)
    /\ filename (self w2) = "C3221234567890_GH010042_2021-06-01T140530.MP4".
Proof.
  intros d env w.
  destruct (serial_then_timestamp env w (snd (retrieve_camera_serial env w))
              "C3221234567890" "2021-06-01T14:05:30Z" "GH010042"
              {| year := 2021; month := 6; day := 1; hour := 14; minute := 5; second := 30 |})
    as (w2 & Hrun & Hname & _); try (vm_compute; reflexivity).
  exists w2. split; [exact Hrun | exact Hname].
Defined.
